(** * The cell execution engine of the Pyodide code cells

    A shallow embedding of [qpyodide-cell-classes.js]: the run lock of an
    [InteractiveCell], [runCode] / [runCodeNE], the Reset handler and the
    feedback handler with its two backends, followed by the properties of
    the engine that the specification states about them.

    Handlers are state transformers over the part of the page they read
    and write, and may throw. The interpreter and the network are given
    from outside, as functions of what they were asked. Calls of [runCode]
    that overlap are followed from one [await] to the next, and the
    feedback handler is split into its own statements and the callbacks
    of its requests. Calls of [console.log] / [console.error] and the
    inline styles of the elements are left out, except for the visibility
    of the <pre> of the output area. *)

From Stdlib Require Import NArith Ascii.
From stdpp Require Import base option list strings gmap.

Local Open Scope N_scope.

(** ** JavaScript strings and values *)

Module Js.

(** A JavaScript string is a sequence of UTF-16 code units. *)
Definition jsstring : Type := list N.

(** A literal of the source, every character of which is below U+0100. *)
Fixpoint lit (s : string) : jsstring :=
  match s with
  | EmptyString => []
  | String a s' => N_of_ascii a :: lit s'
  end.

(** ECMAScript [WhiteSpace] and [LineTerminator]: what [\s] matches. *)
Definition isWhiteSpace (c : N) : bool :=
  (c =? 9) || (c =? 10) || (c =? 11) || (c =? 12) || (c =? 13) || (c =? 32)
  || (c =? 160) || (c =? 5760) || ((8192 <=? c) && (c <=? 8202))
  || (c =? 8232) || (c =? 8233) || (c =? 8239) || (c =? 8287)
  || (c =? 12288) || (c =? 65279).

(** [/\S/.test(s)]: some code unit of [s] is not white space. *)
Definition test_S (s : jsstring) : bool := existsb (fun c => negb (isWhiteSpace c)) s.

(** Truthiness of a string: only the empty string is falsy. *)
Definition truthy_string (s : jsstring) : bool :=
  match s with [] => false | _ :: _ => true end.

(** Truthiness of a property that holds a string when it is defined. *)
Definition truthy_prop (o : option jsstring) : bool :=
  match o with None => false | Some s => truthy_string s end.

(** Truthiness of a property that holds a boolean when it is defined;
    [undefined] is falsy. *)
Definition truthy_flag (o : option bool) : bool :=
  match o with None => false | Some b => b end.

(** [text.replace(/\n/g, '<br>')]. *)
Fixpoint replaceNewlinesWithBr (text : jsstring) : jsstring :=
  match text with
  | [] => []
  | c :: rest =>
      if c =? 10 then lit "<br>" ++ replaceNewlinesWithBr rest
      else c :: replaceNewlinesWithBr rest
  end.

(** What a [throw] or a rejected promise carries. *)
Inductive Exn : Type :=
  | TypeError (reading : string)     (* a property read on null / undefined *)
  | Raised (message : jsstring).     (* raised by a collaborator *)

(** [error.message]; for a [TypeError] the property that was read stands
    for the engine's wording. *)
Definition exn_message (e : Exn) : jsstring :=
  match e with
  | TypeError reading => lit reading
  | Raised message => message
  end.

(** The value of an awaited promise. *)
Inductive Settled (A : Type) : Type :=
  | Fulfilled (a : A)
  | Rejected (reason : Exn).
Arguments Fulfilled {A} a.
Arguments Rejected {A} reason.

End Js.
Export Js.

(** ** The page: the document elements a cell works on *)

Module Dom.

(** The elements the engine creates, and the markup already on the page. *)
Inductive Node : Type :=
  | Pre (hidden : bool) (div : option jsstring)
      (* <pre> with its style.visibility, around at most one <div> whose
         innerHTML is the given text *)
  | Div (id : option string) (html : jsstring)
  | Figure (drawn : list N) (figcaption : option jsstring)
      (* <figure>: what the interpreter drew into it, then the caption *)
  | Markup (html : jsstring).

(** An output area: its content and whether its class list holds
    ['has-content']. *)
Record Region : Type := mkRegion {
  innerHTML : list Node;
  has_content : bool
}.

Definition set_innerHTML (r : Region) (c : list Node) : Region :=
  {| innerHTML := c; has_content := has_content r |}.

Definition appendChild (r : Region) (n : Node) : Region :=
  {| innerHTML := innerHTML r ++ [n]; has_content := has_content r |}.

Definition classList_add (r : Region) : Region :=
  {| innerHTML := innerHTML r; has_content := true |}.

Definition classList_remove (r : Region) : Region :=
  {| innerHTML := innerHTML r; has_content := false |}.

End Dom.
Export Dom.

(** ** The collaborators of the engine *)

Module World.

(** What is handed to the capture buffer: a text or value, or the error
    that was caught. *)
Inductive Payload : Type :=
  | Value (v : jsstring)
  | Caught (e : Exn).

(** One entry of the capture buffer: what was emitted, and on which
    stream. *)
Record OutputRecord : Type := mkRecord {
  rec_payload : Payload;
  rec_kind : string
}.

(** The calls the shared interpreter has received. *)
Inductive PyCall : Type :=
  | LoadPackagesFromImports (code : jsstring)
  | RunPythonAsync (code : jsstring).

(** What one [runPythonAsync] does before it settles: the records its
    stdout / stderr callbacks push, the elements it draws into
    [document.pyodideMplTarget], and the value it resolves with or the
    error it raises (both in their textual form). *)
Record RunEffect : Type := mkRunEffect {
  emitted : list OutputRecord;
  drawn_elements : list N;
  settles : Settled jsstring
}.

(** The interpreter, as a function of the calls made to it so far. *)
Record Interpreter : Type := mkInterpreter {
  mainPyodide : Settled unit;
  loadPackagesFromImports : list PyCall -> jsstring -> Settled unit;
  runPythonAsync : list PyCall -> jsstring -> RunEffect
}.

(** The body of a chat response: [{ choices: [{ message: { content } }] }],
    any part of which may be missing. *)
Record Message : Type := mkMessage { content : option jsstring }.
Record Choice : Type := mkChoice { message : option Message }.

(** A parsed JSON body; [None] stands for a missing field. *)
Record Json : Type := mkJson {
  data : option (list jsstring);      (* the ids of [data: [{ id }, ...]] *)
  choices : option (list Choice)
}.

Inductive Request : Type :=
  | GET (url : jsstring) (bearer : jsstring)
  | POST (url : jsstring) (bearer : option jsstring)
         (messages : list (string * jsstring)) (model : option (option jsstring)).

(** [fetch(...).then(r => r.json())]: rejected, or a body ([None] is the
    JSON value null). *)
Record Network : Type := mkNetwork {
  fetch : Request -> Settled (option Json)
}.

Inductive Alert : Type :=
  | AlertText (text : string)
  | AlertError (text : string) (error : Exn).

End World.
Export World.

(** ** The state the handlers of one cell read and write *)

Module State.

(** The two run targets of an interactive cell: the one it is created
    with, and the one its "add code block" button appends. *)
Inductive Target : Type := Primary | Appended.

(** The editor and the three areas of one target: [editor] /
    [outputCodeDiv] / [outputFeedbackDiv] / [outputGraphDiv] for the
    primary one, [newEditor] / [outputCodeDiv2] / ... for the appended one.
    [document.getElementById] gives null for an element that is not in the
    document; only the feedback area can be absent. *)
Record RunTarget : Type := mkRunTarget {
  editor_value : jsstring;
  qpyodideinitialCode : jsstring;
  outputCodeDiv : Region;
  outputFeedbackDiv : option Region;
  outputGraphDiv : Region
}.

Record Page : Type := mkPage {
  this_props : gmap string bool;        (* boolean properties of the cell object *)
  primary : RunTarget;
  appended : RunTarget;
  run_buttons : list bool;              (* [disabled] of every .qpyodide-button-run *)
  qpyodideOutput : list OutputRecord;   (* the capture buffer *)
  figures : list (list N);              (* the <figure> elements created so far *)
  pyodideMplTarget : option nat;        (* document.pyodideMplTarget *)
  py_calls : list PyCall;               (* calls received by the interpreter *)
  requests : list Request;              (* calls of fetch *)
  alerts : list Alert                   (* calls of alert *)
}.

(** What a handler reads and never writes. *)
Record Config : Type := mkConfig {
  feedback : bool;                      (* globalThis.feedback == true *)
  read_only : option jsstring;          (* this.options['read-only'] *)
  fig_cap : option jsstring;            (* this.options['fig-cap'] *)
  backend : jsstring;                   (* globalThis.backend *)
  baseUrlInput : jsstring;              (* value of #baseUrlInput *)
  apiKeyInput : jsstring                (* value of #apiKeyInput *)
}.

Definition with_outputCodeDiv (r : Region) (t : RunTarget) : RunTarget :=
  mkRunTarget (editor_value t) (qpyodideinitialCode t) r
              (outputFeedbackDiv t) (outputGraphDiv t).
Definition with_outputFeedbackDiv (r : option Region) (t : RunTarget) : RunTarget :=
  mkRunTarget (editor_value t) (qpyodideinitialCode t) (outputCodeDiv t)
              r (outputGraphDiv t).
Definition with_outputGraphDiv (r : Region) (t : RunTarget) : RunTarget :=
  mkRunTarget (editor_value t) (qpyodideinitialCode t) (outputCodeDiv t)
              (outputFeedbackDiv t) r.
Definition with_editor_value (v : jsstring) (t : RunTarget) : RunTarget :=
  mkRunTarget v (qpyodideinitialCode t) (outputCodeDiv t)
              (outputFeedbackDiv t) (outputGraphDiv t).

Definition target (tg : Target) (p : Page) : RunTarget :=
  match tg with Primary => primary p | Appended => appended p end.

Definition with_target (tg : Target) (t : RunTarget) (p : Page) : Page :=
  match tg with
  | Primary =>
      mkPage (this_props p) t (appended p) (run_buttons p) (qpyodideOutput p)
             (figures p) (pyodideMplTarget p) (py_calls p) (requests p) (alerts p)
  | Appended =>
      mkPage (this_props p) (primary p) t (run_buttons p) (qpyodideOutput p)
             (figures p) (pyodideMplTarget p) (py_calls p) (requests p) (alerts p)
  end.
Definition with_this_props (m : gmap string bool) (p : Page) : Page :=
  mkPage m (primary p) (appended p) (run_buttons p) (qpyodideOutput p)
         (figures p) (pyodideMplTarget p) (py_calls p) (requests p) (alerts p).
Definition with_run_buttons (b : list bool) (p : Page) : Page :=
  mkPage (this_props p) (primary p) (appended p) b (qpyodideOutput p)
         (figures p) (pyodideMplTarget p) (py_calls p) (requests p) (alerts p).
Definition with_qpyodideOutput (o : list OutputRecord) (p : Page) : Page :=
  mkPage (this_props p) (primary p) (appended p) (run_buttons p) o
         (figures p) (pyodideMplTarget p) (py_calls p) (requests p) (alerts p).
Definition with_figures (f : list (list N)) (p : Page) : Page :=
  mkPage (this_props p) (primary p) (appended p) (run_buttons p) (qpyodideOutput p)
         f (pyodideMplTarget p) (py_calls p) (requests p) (alerts p).
Definition with_pyodideMplTarget (t : option nat) (p : Page) : Page :=
  mkPage (this_props p) (primary p) (appended p) (run_buttons p) (qpyodideOutput p)
         (figures p) t (py_calls p) (requests p) (alerts p).
Definition with_py_calls (c : list PyCall) (p : Page) : Page :=
  mkPage (this_props p) (primary p) (appended p) (run_buttons p) (qpyodideOutput p)
         (figures p) (pyodideMplTarget p) c (requests p) (alerts p).
Definition with_requests (r : list Request) (p : Page) : Page :=
  mkPage (this_props p) (primary p) (appended p) (run_buttons p) (qpyodideOutput p)
         (figures p) (pyodideMplTarget p) (py_calls p) r (alerts p).
Definition with_alerts (a : list Alert) (p : Page) : Page :=
  mkPage (this_props p) (primary p) (appended p) (run_buttons p) (qpyodideOutput p)
         (figures p) (pyodideMplTarget p) (py_calls p) (requests p) a.

(** *** Handlers as state transformers that may throw *)

Inductive Outcome (A : Type) : Type :=
  | Done (a : A)
  | Thrown (e : Exn).
Arguments Done {A} a.
Arguments Thrown {A} e.

Definition M (A : Type) : Type := Page -> Outcome A * Page.

Definition ret {A} (a : A) : M A := fun p => (Done a, p).
Definition throw {A} (e : Exn) : M A := fun p => (Thrown e, p).
Definition bind {A B} (m : M A) (k : A -> M B) : M B :=
  fun p => match m p with
           | (Done a, p') => k a p'
           | (Thrown e, p') => (Thrown e, p')
           end.
(** [try { m } catch (err) { h err }]: what [m] wrote before it threw stays. *)
Definition try_catch {A} (m : M A) (h : Exn -> M A) : M A :=
  fun p => match m p with
           | (Done a, p') => (Done a, p')
           | (Thrown e, p') => h e p'
           end.
Definition read {A} (f : Page -> A) : M A := fun p => (Done (f p), p).
Definition modify (f : Page -> Page) : M unit := fun p => (Done tt, f p).
(** [await x]. *)
Definition await {A} (x : Settled A) : M A :=
  match x with
  | Fulfilled a => ret a
  | Rejected e => throw e
  end.

Declare Scope js_scope.
Delimit Scope js_scope with js.
Notation "x <- m ;; k" := (bind m (fun x => k))
  (at level 100, m at next level, right associativity) : js_scope.
Notation "m ;; k" := (bind m (fun _ => k))
  (at level 100, right associativity) : js_scope.

End State.
Export State.

(** ** The execution engine: [runCode] and [runCodeNE] *)

Module Engine.

Local Open Scope js_scope.

(** [BaseCell]'s constructor: [this.executionLock = false]. *)
Definition constructor_props : gmap string bool := {["executionLock" := false]}.

(** [disableInteractiveCells()]. *)
Definition disableInteractiveCells : M unit :=
  modify (fun p => with_this_props (<["executionLock" := true]> (this_props p)) p);;
  modify (fun p => with_run_buttons (map (fun _ => true) (run_buttons p)) p).

(** [enableInteractiveCells()]. *)
Definition enableInteractiveCells : M unit :=
  modify (fun p => with_this_props (<["executionLock" := false]> (this_props p)) p);;
  modify (fun p => with_run_buttons (map (fun _ => false) (run_buttons p)) p).

(** The test of [if (this.executeLock) return;]. *)
Definition executeLock : M bool :=
  read (fun p => truthy_flag (this_props p !! "executeLock")).

(** Modelled from the spec: [qpyodideResetOutputArray], which is defined
    outside the given sources; the capture buffer is reset for the run. *)
Definition qpyodideResetOutputArray : M unit :=
  modify (with_qpyodideOutput []).

(** Modelled from the spec: [qpyodideAddToOutputArray], which is defined
    outside the given sources; the buffer accumulates the stream records
    in the order they are emitted. *)
Definition qpyodideAddToOutputArray (x : Payload) (kind : string) : M unit :=
  modify (fun p => with_qpyodideOutput (qpyodideOutput p ++ [mkRecord x kind]) p).

Definition on_outputCodeDiv (tg : Target) (f : Region -> Region) : M unit :=
  modify (fun p =>
    with_target tg (with_outputCodeDiv (f (outputCodeDiv (target tg p))) (target tg p)) p).

Definition on_outputGraphDiv (tg : Target) (f : Region -> Region) : M unit :=
  modify (fun p =>
    with_target tg (with_outputGraphDiv (f (outputGraphDiv (target tg p))) (target tg p)) p).

(** [document.createElement("figure")]: a new element without children. *)
Definition createElement_figure : M nat :=
  figs <- read figures;;
  modify (with_figures (figs ++ [[]]));;
  ret (length figs).

(** [graphFigure.children]. *)
Definition figure_children (graphFigure : nat) : M (list N) :=
  read (fun p => default [] (figures p !! graphFigure)).

(** The interpreter draws into the element [document.pyodideMplTarget]
    refers to. [figures] holds the children every <figure> element has
    now. A [Figure] node in a graph area records the children the element
    had when [runCode] appended it: the area holds the element itself, so
    what is drawn into it afterwards shows there as well, and is found in
    [figures], not in the node. *)
Definition draw (els : list N) (p : Page) : Page :=
  match pyodideMplTarget p with
  | Some i => with_figures (alter (fun kids => kids ++ els) i (figures p)) p
  | None => p
  end.

Section WithInterpreter.

Variable py : Interpreter.
Variable cfg : Config.

(** The formatting of the buffer into one block, [qpyodideRetrieveOutput],
    is defined outside the given sources and is left open. *)
Variable formatOutput : list OutputRecord -> jsstring.

Definition qpyodideRetrieveOutput : M jsstring :=
  read (fun p => formatOutput (qpyodideOutput p)).

(** [await mainPyodide.loadPackagesFromImports(code)]. *)
Definition await_loadPackagesFromImports (code : jsstring) : M unit :=
  calls <- read py_calls;;
  modify (with_py_calls (calls ++ [LoadPackagesFromImports code]));;
  await (loadPackagesFromImports py calls code).

(** [await mainPyodide.runPythonAsync(code)]. *)
Definition await_runPythonAsync (code : jsstring) : M jsstring :=
  calls <- read py_calls;;
  modify (with_py_calls (calls ++ [RunPythonAsync code]));;
  let eff := runPythonAsync py calls code in
  modify (fun p => with_qpyodideOutput (qpyodideOutput p ++ emitted eff) p);;
  modify (draw (drawn_elements eff));;
  await (settles eff).

(** The [try { ... } catch (err) { ... }] that runs the source text. *)
Definition run_and_capture (code : jsstring) : M unit :=
  try_catch
    (await_loadPackagesFromImports code;;
     output <- await_runPythonAsync code;;
     qpyodideAddToOutputArray (Value output) "stdout")
    (fun err => qpyodideAddToOutputArray (Caught err) "stderr").

(** [runCode] up to its first [await]: the guard and the locking. The
    result tells whether the call went past the guard. *)
Definition runCode_enter : M bool :=
  locked <- executeLock;;
  if locked then ret false
  else disableInteractiveCells;; ret true.

(** [runCode] from its first [await] to its end. *)
Definition runCode_resume (tg : Target) (code : jsstring) : M unit :=
  await (mainPyodide py);;
  qpyodideResetOutputArray;;
  graphFigure <- createElement_figure;;
  modify (with_pyodideMplTarget (Some graphFigure));;
  run_and_capture code;;
  result <- qpyodideRetrieveOutput;;
  on_outputCodeDiv tg (fun r => set_innerHTML r []);;
  on_outputGraphDiv tg (fun r => set_innerHTML r []);;
  pre <- (if test_S result
          then on_outputCodeDiv tg classList_add;; ret (Pre false (Some result))
          else on_outputCodeDiv tg classList_remove;; ret (Pre true None));;
  on_outputCodeDiv tg (fun r => appendChild r pre);;
  children <- figure_children graphFigure;;
  (if bool_decide (0 < length children)%nat
   then
     let figcaption := if truthy_prop (fig_cap cfg) then fig_cap cfg else None in
     on_outputGraphDiv tg (fun r => appendChild r (Figure children figcaption));;
     on_outputGraphDiv tg classList_add
   else on_outputGraphDiv tg classList_remove);;
  enableInteractiveCells.

(** The two copies of the method differ only in the areas they write. *)
Definition runCode_on (tg : Target) (code : jsstring) : M unit :=
  entered <- runCode_enter;;
  if entered then runCode_resume tg code else ret tt.

Definition runCode : jsstring -> M unit := runCode_on Primary.
Definition runCodeNE : jsstring -> M unit := runCode_on Appended.

End WithInterpreter.

End Engine.
Export Engine.

(** ** Construction of an interactive cell and its click handlers *)

Module Cell.

Local Open Scope js_scope.

(** [setupElement] creates the feedback area when [globalThis.feedback ==
    true] and puts it into the document when moreover the cell's
    ['read-only'] option is the string ["false"]; [setupMonacoEditor] then
    looks the three areas up by id. *)
Definition setupElement_feedback_area (cfg : Config) : option Region :=
  if feedback cfg then Some (mkRegion [] false) else None.

Definition setupMonacoEditor_outputFeedbackDiv (cfg : Config) : option Region :=
  if feedback cfg && bool_decide (read_only cfg = Some (lit "false"))
  then setupElement_feedback_area cfg
  else None.

(** [setupNewElement] puts the feedback area of the appended target into
    the document whenever it creates it. *)
Definition setupNewMonacoEditor_outputFeedbackDiv2 (cfg : Config) : option Region :=
  if feedback cfg then Some (mkRegion [] false) else None.

(** The primary target after construction; the output area starts with a
    hidden, empty <pre>. *)
Definition setupMonacoEditor (cfg : Config) (code : jsstring) : RunTarget :=
  {| editor_value := code;
     qpyodideinitialCode := code;
     outputCodeDiv := mkRegion [Pre true None] false;
     outputFeedbackDiv := setupMonacoEditor_outputFeedbackDiv cfg;
     outputGraphDiv := mkRegion [] false |}.

(** The appended target; its editor starts empty. *)
Definition setupNewMonacoEditor (cfg : Config) : RunTarget :=
  {| editor_value := [];
     qpyodideinitialCode := [];
     outputCodeDiv := mkRegion [Pre true None] false;
     outputFeedbackDiv := setupNewMonacoEditor_outputFeedbackDiv2 cfg;
     outputGraphDiv := mkRegion [] false |}.

(** A page with one interactive cell, both its targets, and the run
    buttons of the page in the given state. *)
Definition new_InteractiveCell (cfg : Config) (code : jsstring) (buttons : list bool) : Page :=
  {| this_props := constructor_props;
     primary := setupMonacoEditor cfg code;
     appended := setupNewMonacoEditor cfg;
     run_buttons := buttons;
     qpyodideOutput := [];
     figures := [];
     pyodideMplTarget := None;
     py_calls := [];
     requests := [];
     alerts := [] |}.

(** [area.classList.contains('has-content')] on a reference that may be
    null. *)
Definition classList_contains (area : option Region) : M bool :=
  match area with
  | None => throw (TypeError "classList")
  | Some r => ret (has_content r)
  end.

(** [resetButton.onclick], for either target. *)
Definition resetButton_onclick (tg : Target) : M unit :=
  modify (fun p =>
    with_target tg (with_editor_value (qpyodideinitialCode (target tg p)) (target tg p)) p);;
  fb <- read (fun p => outputFeedbackDiv (target tg p));;
  marked <- classList_contains fb;;
  (if marked
   then modify (fun p =>
          with_target tg
            (with_outputFeedbackDiv
               (option_map (fun r => set_innerHTML r []) (outputFeedbackDiv (target tg p)))
               (target tg p)) p)
   else ret tt);;
  out <- read (fun p => outputCodeDiv (target tg p));;
  (if has_content out then on_outputCodeDiv tg (fun r => set_innerHTML r []) else ret tt);;
  gr <- read (fun p => outputGraphDiv (target tg p));;
  (if has_content gr then on_outputGraphDiv tg (fun r => set_innerHTML r []) else ret tt).

(** *** Runs in flight

    A trigger (the run button, Shift+Enter) calls [runCode] with the text
    of the editor and then marks the output area; the call runs up to its
    first [await] and is resumed later. [Resume] lets the oldest call in
    flight run from there to its end with no other call resumed in
    between; the moves of overlapping calls from one [await] to the next
    are those of [Interleaving]. *)
Inductive Event : Type :=
  | Trigger (tg : Target)
  | Resume.

Record Session : Type := mkSession {
  page : Page;
  in_flight : list (Target * jsstring)   (* calls suspended at their await *)
}.

Section WithInterpreter.

Variable py : Interpreter.
Variable cfg : Config.
Variable formatOutput : list OutputRecord -> jsstring.

Definition step (s : Session) (ev : Event) : Session :=
  match ev with
  | Trigger tg =>
      let code := editor_value (target tg (page s)) in
      let '(entered, p1) := runCode_enter (page s) in
      let p2 := snd (on_outputCodeDiv tg classList_add p1) in
      match entered with
      | Done true => mkSession p2 (in_flight s ++ [(tg, code)])
      | _ => mkSession p2 (in_flight s)
      end
  | Resume =>
      match in_flight s with
      | [] => s
      | (tg, code) :: rest =>
          mkSession (snd (runCode_resume py cfg formatOutput tg code (page s))) rest
      end
  end.

Definition run_events (s : Session) (evs : list Event) : Session :=
  fold_left step evs s.

End WithInterpreter.

End Cell.
Export Cell.

(** ** The feedback handler and its two backends *)

Module Feedback.

Local Open Scope js_scope.

Definition system_prompt : jsstring :=
  lit "You are an AI Assistant, specialized in coding issues. You give concise answers, without asking further questions.".

Definition prompt1 : jsstring :=
  lit "Review the following Python code for errors and provide feedback. The code output, including any syntax errors, will be provided for detailed analysis. This is the source code of the user:"
  ++ [10].

Definition prompt2 : jsstring :=
  lit "Your feedback should highlight both the strengths of the code and any potential errors, providing explanations where necessary. While you may offer tips for improvement, avoid providing exact code solutions. Focus on guiding the user towards better practices and understanding. Structure the feedback like this: Syntax errors: "
  ++ [10] ++ lit " Strengths of the code: " ++ [10]
  ++ lit " Potential improvements:" ++ [10] ++ lit " ".

Definition runtime_prompt : jsstring :=
  [10] ++ lit "Here is the output of the python interpreter:" ++ [10].

Definition preferred_model : jsstring := lit "mixtral-8x7b-32768".

Definition flask_url : jsstring := lit "http://127.0.0.1:5000/api/feedback".

(** The text of the alert in the [catch] of the chat request of the
    remote-model backend; the two copies of the handler word it
    differently. *)
Definition groq_api_error (tg : Target) : string :=
  match tg with
  | Primary => "Error requesting the API: "
  | Appended => "Error when requesting the API: "
  end.

Definition alert (a : Alert) : M unit :=
  modify (fun p => with_alerts (alerts p ++ [a]) p).

(** A write to the feedback area, through a reference that may be null. *)
Definition on_outputFeedbackDiv (tg : Target) (prop : string) (f : Region -> Region) : M unit :=
  fb <- read (fun p => outputFeedbackDiv (target tg p));;
  match fb with
  | None => throw (TypeError prop)
  | Some r =>
      modify (fun p =>
        with_target tg (with_outputFeedbackDiv (Some (f r)) (target tg p)) p)
  end.

(** [data.choices[0].message.content]. *)
Definition choices_0_message_content (d : option Json) : M (option jsstring) :=
  match d with
  | None => throw (TypeError "choices")
  | Some j =>
      match choices j with
      | None => throw (TypeError "0")
      | Some [] => throw (TypeError "message")
      | Some (c :: _) =>
          match message c with
          | None => throw (TypeError "content")
          | Some m => ret (content m)
          end
      end
  end.

(** The rendering both backends share: read the reply, put the header and
    then the reply, with its line breaks, into the feedback area. *)
Definition render_feedback (tg : Target) (d : option Json) : M unit :=
  fb <- choices_0_message_content d;;
  on_outputFeedbackDiv tg "appendChild"
    (fun r => appendChild r (Div (Some "feedback-label") (lit "AI-Feedback:")));;
  html <- match fb with
          | None => throw (TypeError "replace")
          | Some text => ret (replaceNewlinesWithBr text)
          end;;
  on_outputFeedbackDiv tg "appendChild" (fun r => appendChild r (Div None html)).

(** What a branch of the handler leaves behind: nothing, a [return] out of
    the handler, or a request whose callbacks run later. *)
Inductive Branch : Type :=
  | NotTaken
  | Returned
  | Requested (response : Settled (option Json)).

(** What the handler has left when it returns: the request of each of
    its two [if]s, whose callbacks have yet to run, and the error its last
    statement threw, if it did. *)
Record Pending : Type := mkPending {
  groq_request : Branch;
  flask_request : Branch;
  marking : option Exn
}.

Section WithCollaborators.

Variable py : Interpreter.
Variable net : Network.
Variable cfg : Config.
Variable formatOutput : list OutputRecord -> jsstring.

Definition call_fetch (rq : Request) : M (Settled (option Json)) :=
  modify (fun p => with_requests (requests p ++ [rq]) p);;
  ret (fetch net rq).

(** The first [try] of the handler: run the text of the editor again and
    keep the block it produced. [None]: the handler returned at the guard. *)
Definition rerun (data : jsstring) : M (option jsstring) :=
  try_catch
    (locked <- executeLock;;
     if locked then ret None
     else
       disableInteractiveCells;;
       await (mainPyodide py);;
       qpyodideResetOutputArray;;
       run_and_capture py data;;
       runtime_message <- qpyodideRetrieveOutput formatOutput;;
       enableInteractiveCells;;
       ret (Some runtime_message))
    (fun error => ret (Some (lit "Error: " ++ exn_message error))).

(** The callbacks of the chat request of the remote-model backend. *)
Definition groq_chat_then (tg : Target) (response : Settled (option Json)) : M unit :=
  try_catch
    (d <- await response;;
     on_outputFeedbackDiv tg "innerHTML" (fun r => set_innerHTML r []);;
     render_feedback tg d)
    (fun error => alert (AlertError (groq_api_error tg) error)).

(** The model id the remote-model backend is asked for; [None] is
    [undefined], the first element of an empty list. *)
Definition select_model (modelIds : list jsstring) : option jsstring :=
  if bool_decide (preferred_model ∈ modelIds) then Some preferred_model
  else head modelIds.

(** The callbacks of the model-list request, and then those of the chat
    request they issue. *)
Definition groq_models_then (tg : Target) (messages : list (string * jsstring))
    (response : Settled (option Json)) : M unit :=
  chat <- try_catch
    (modelsData <- await response;;
     modelIds <- match modelsData with
                 | None => throw (TypeError "data")
                 | Some j =>
                     match data j with
                     | None => throw (TypeError "map")
                     | Some ids => ret ids
                     end
                 end;;
     let selectedModel := select_model modelIds in
     r <- call_fetch (POST (baseUrlInput cfg ++ lit "/chat/completions")
                           (Some (apiKeyInput cfg)) messages (Some selectedModel));;
     ret (Some r))
    (fun error =>
       alert (AlertError "Error when retrieving the model list: " error);;
       ret None);;
  match chat with
  | Some r => groq_chat_then tg r
  | None => ret tt
  end.

(** [if (globalThis.backend == "groq") { ... }], up to the request. *)
Definition groq_branch : M Branch :=
  if bool_decide (backend cfg = lit "groq") then
    if negb (truthy_string (apiKeyInput cfg)) then
      alert (AlertText "Please enter your API Key.");;
      ret Returned
    else
      r <- call_fetch (GET (baseUrlInput cfg ++ lit "/models") (apiKeyInput cfg));;
      ret (Requested r)
  else ret NotTaken.

(** [if (globalThis.backend == "flask") { ... }], up to the request. *)
Definition flask_branch (messages : list (string * jsstring)) : M Branch :=
  if bool_decide (backend cfg = lit "flask") then
    r <- call_fetch (POST flask_url None messages None);;
    ret (Requested r)
  else ret NotTaken.

(** The callbacks of the request of the local-server backend. *)
Definition flask_then (tg : Target) (response : Settled (option Json)) : M unit :=
  try_catch
    (d <- await response;;
     match d with
     | Some {| choices := Some (c :: rest) |} =>
         on_outputFeedbackDiv tg "innerHTML" (fun r => set_innerHTML r []);;
         render_feedback tg d
     | _ =>
         alert (AlertText "Error when retrieving feedback: 'choices' field not available or empty.")
     end)
    (fun error => alert (AlertError "Error when requesting the API:  " error)).

Definition callbacks (tg : Target)
    (then_ : Target -> Settled (option Json) -> M unit) (b : Branch) : M unit :=
  match b with
  | Requested response => then_ tg response
  | _ => ret tt
  end.

(** The two messages of the exchange. *)
Definition exchange (runtime_message data : jsstring) : list (string * jsstring) :=
  [("system", system_prompt);
   ("user", runtime_prompt ++ runtime_message ++ prompt1 ++ data ++ prompt2)].

(** The statements of the handler from the choice of the backend on: the
    two [if]s, each up to its [fetch], and the last statement, which marks
    the feedback area. They are executed before any callback of a request
    can run. [None]: the handler returned for want of a credential. *)
Definition submit_statements (tg : Target) (messages : list (string * jsstring))
    : M (option Pending) :=
  g <- groq_branch;;
  match g with
  | Returned => ret None
  | _ =>
      f <- flask_branch messages;;
      marked <- try_catch (on_outputFeedbackDiv tg "classList" classList_add;; ret None)
                          (fun error => ret (Some error));;
      ret (Some (mkPending g f marked))
  end.

(** What happens once the statements of the handler are done: the
    callbacks of the requests it left pending, which run whether or not
    the last statement of the handler threw. *)
Definition submit_callbacks (tg : Target) (messages : list (string * jsstring))
    (pending : Pending) : M unit :=
  callbacks tg (fun tg => groq_models_then tg messages) (groq_request pending);;
  callbacks tg flask_then (flask_request pending);;
  match marking pending with
  | None => ret tt
  | Some error => throw error
  end.

(** The handler from the choice of the backend on, together with the
    callbacks of its requests. *)
Definition submit (tg : Target) (messages : list (string * jsstring)) : M unit :=
  pending <- submit_statements tg messages;;
  match pending with
  | None => ret tt
  | Some pending => submit_callbacks tg messages pending
  end.

(** The statements of [feedbackButton.onclick], for either target: the
    handler up to the point where it returns. The result is what it left
    pending, with the messages of the exchange; [None] when it returned at
    the guard or for want of a credential. *)
Definition feedbackButton_onclick_statements (tg : Target)
    : M (option (list (string * jsstring) * Pending)) :=
  data <- read (fun p => editor_value (target tg p));;
  r <- rerun data;;
  match r with
  | None => ret None
  | Some runtime_message =>
      pending <- submit_statements tg (exchange runtime_message data);;
      match pending with
      | None => ret None
      | Some pending => ret (Some (exchange runtime_message data, pending))
      end
  end.

(** [feedbackButton.onclick], for either target, together with the
    callbacks of its requests. *)
Definition feedbackButton_onclick (tg : Target) : M unit :=
  data <- read (fun p => editor_value (target tg p));;
  r <- rerun data;;
  match r with
  | None => ret tt
  | Some runtime_message => submit tg (exchange runtime_message data)
  end.

End WithCollaborators.

End Feedback.
Export Feedback.

(** ** What one run does to the interpreter, the buffer and the sink *)

Module Observed.

Section Run.

Variable py : Interpreter.
Variable cfg : Config.

(** The calls the interpreter receives in one run that starts after
    [calls]. *)
Definition run_calls (calls : list PyCall) (code : jsstring) : list PyCall :=
  match loadPackagesFromImports py calls code with
  | Fulfilled _ => [LoadPackagesFromImports code; RunPythonAsync code]
  | Rejected _ => [LoadPackagesFromImports code]
  end.

(** The records one run leaves in the buffer. *)
Definition run_records (calls : list PyCall) (code : jsstring) : list OutputRecord :=
  match loadPackagesFromImports py calls code with
  | Fulfilled _ =>
      let eff := runPythonAsync py (calls ++ [LoadPackagesFromImports code]) code in
      emitted eff ++
      [match settles eff with
       | Fulfilled output => mkRecord (Value output) "stdout"
       | Rejected err => mkRecord (Caught err) "stderr"
       end]
  | Rejected err => [mkRecord (Caught err) "stderr"]
  end.

(** The elements one run draws into the sink. *)
Definition run_drawn (calls : list PyCall) (code : jsstring) : list N :=
  match loadPackagesFromImports py calls code with
  | Fulfilled _ =>
      drawn_elements (runPythonAsync py (calls ++ [LoadPackagesFromImports code]) code)
  | Rejected _ => []
  end.

(** What [runCode] leaves in the output area for a block. *)
Definition rendered_output (block : jsstring) : Region :=
  if test_S block then mkRegion [Pre false (Some block)] true
  else mkRegion [Pre true None] false.

(** What [runCode] leaves in the graph area for the drawn elements. *)
Definition rendered_graph (drawn : list N) : Region :=
  match drawn with
  | [] => mkRegion [] false
  | _ :: _ =>
      mkRegion [Figure drawn (if truthy_prop (fig_cap cfg) then fig_cap cfg else None)] true
  end.

End Run.

(** What Reset does to an area: its content goes when it is marked, and
    the mark is left as it is. *)
Definition cleared_if_marked (r : Region) : Region :=
  if has_content r then set_innerHTML r [] else r.

(** The mark on the feedback area of a target, when there is one. *)
Definition feedback_mark (tg : Target) (p : Page) : option bool :=
  has_content <$> outputFeedbackDiv (target tg p).

(** The content of the feedback area of a target, when there is one. *)
Definition feedback_content (tg : Target) (p : Page) : option (list Node) :=
  innerHTML <$> outputFeedbackDiv (target tg p).


(** The requests the statements of the feedback handler make themselves,
    before any reply: the one for the model list under the remote-model
    backend, the one for the feedback under the local-server backend. *)
Definition handler_requests (cfg : Config) (messages : list (string * jsstring))
    : list Request :=
  (if bool_decide (backend cfg = lit "groq")
   then [GET (baseUrlInput cfg ++ lit "/models") (apiKeyInput cfg)] else []) ++
  (if bool_decide (backend cfg = lit "flask")
   then [POST flask_url None messages None] else []).

End Observed.
Export Observed.

(** ** Concrete collaborators and pages *)

Module Scenarios.

(** A formatter that concatenates the texts of the records. *)
Definition fmt_concat (l : list OutputRecord) : jsstring :=
  concat (map (fun r => match rec_payload r with
                        | Value v => v
                        | Caught e => exn_message e
                        end) l).

(** An interpreter that is ready, finds every dependency, echoes the
    source on stdout and draws one element. *)
Definition py_echo : Interpreter :=
  mkInterpreter (Fulfilled tt) (fun _ _ => Fulfilled tt)
    (fun _ code => mkRunEffect [mkRecord (Value code) "out"] [1] (Fulfilled [])).

(** An interpreter that is ready and runs every source silently, without
    output and without drawing. *)
Definition py_silent : Interpreter :=
  mkInterpreter (Fulfilled tt) (fun _ _ => Fulfilled tt)
    (fun _ _ => mkRunEffect [] [] (Fulfilled [])).

(** An interpreter whose dependency resolution fails. *)
Definition py_no_deps : Interpreter :=
  mkInterpreter (Fulfilled tt)
    (fun _ _ => Rejected (Raised (lit "Failed to fetch")))
    (fun _ code => mkRunEffect [mkRecord (Value code) "out"] [] (Fulfilled [])).

(** An interpreter in which every source raises. *)
Definition py_raises : Interpreter :=
  mkInterpreter (Fulfilled tt) (fun _ _ => Fulfilled tt)
    (fun _ _ => mkRunEffect [] [] (Rejected (Raised (lit "ZeroDivisionError: division by zero")))).

(** An interpreter that failed to initialise. *)
Definition py_not_ready : Interpreter :=
  mkInterpreter (Rejected (Raised (lit "Failed to load Pyodide")))
    (fun _ _ => Fulfilled tt)
    (fun _ _ => mkRunEffect [] [] (Fulfilled [])).

(** The settings the document ships with: no feedback button, the
    remote-model backend. *)
Definition cfg_default : Config :=
  mkConfig false (Some (lit "false")) None (lit "groq") [] [].

Definition cfg_captioned : Config :=
  mkConfig false (Some (lit "false")) (Some (lit "Figure 1")) (lit "groq") [] [].

Definition cfg_groq (apiKey : jsstring) : Config :=
  mkConfig true (Some (lit "false")) None (lit "groq") (lit "https://api.groq.com/openai/v1") apiKey.

Definition cfg_flask : Config :=
  mkConfig true (Some (lit "false")) None (lit "flask") [] [].

Definition source : jsstring := lit "print(1+1)".

(** A page with one cell and two run buttons, both enabled. *)
Definition page_of (cfg : Config) : Page :=
  new_InteractiveCell cfg source [false; false].

(** A feedback area that holds an earlier reply. *)
Definition earlier_reply : Region :=
  mkRegion [Div (Some "feedback-label") (lit "AI-Feedback:");
            Div None (lit "an earlier reply")] true.

(** The same page with an earlier reply still in the feedback area of the
    primary target. *)
Definition page_with_reply (cfg : Config) : Page :=
  with_target Primary
    (with_outputFeedbackDiv (Some earlier_reply) (primary (page_of cfg)))
    (page_of cfg).

(** The page after one run of its source on the echoing interpreter: the
    output area and the graph area both hold content and are marked. The
    text of the editor has been changed since. *)
Definition page_after_run (cfg : Config) : Page :=
  with_target Primary
    (with_editor_value (lit "print(3)")
       (primary (snd (runCode py_echo cfg fmt_concat source (page_of cfg)))))
    (snd (runCode py_echo cfg fmt_concat source (page_of cfg))).

(** A credential, and a model list without the preferred model. *)
Definition api_key : jsstring := lit "gsk_0".

Definition listed_models : list jsstring := [lit "llama3-8b-8192"; lit "gemma-7b-it"].

(** A network that is down. *)
Definition net_down : Network :=
  mkNetwork (fun _ => Rejected (Raised (lit "TypeError: Failed to fetch"))).


(** A server that lists the given model ids and replies to every chat
    request with the given text. *)
Definition net_replies (ids : list jsstring) (reply : jsstring) : Network :=
  mkNetwork (fun rq =>
    match rq with
    | GET _ _ => Fulfilled (Some (mkJson (Some ids) None))
    | POST _ _ _ _ =>
        Fulfilled (Some (mkJson None (Some [mkChoice (Some (mkMessage (Some reply)))])))
    end).

End Scenarios.
Export Scenarios.

(** ** The cell factory and the cell container *)

Module Registry.

Inductive CellClass : Type := InteractiveCell | OutputCell | SetupCell.

(** A cell declaration: [{code, id, options: {context, ...}}]. *)
Record CellData : Type := mkCellData {
  cd_code : jsstring;
  cd_id : jsstring;
  cd_context : option jsstring          (* cellData.options.context *)
}.

(** What [executeCode] reads of a cell object. *)
Record CellObject : Type := mkCellObject {
  cell_class : CellClass;
  cell_code : jsstring
}.

(** [qpyodideCreateCell]: the [switch] on the context tag. *)
Definition qpyodideCreateCell (cellData : CellData) : CellObject :=
  if bool_decide (cd_context cellData = Some (lit "interactive"))
  then mkCellObject InteractiveCell (cd_code cellData)
  else if bool_decide (cd_context cellData = Some (lit "output"))
  then mkCellObject OutputCell (cd_code cellData)
  else if bool_decide (cd_context cellData = Some (lit "setup"))
  then mkCellObject SetupCell (cd_code cellData)
  else mkCellObject InteractiveCell (cd_code cellData).

(** [CellContainer.addCell]: [this.cells.push(cell)]. *)
Definition addCell (cells : list CellObject) (cell : CellObject) : list CellObject :=
  cells ++ [cell].

(** The names of the methods a cell has, its own and those of [BaseCell]. *)
Definition method_names (c : CellClass) : list string :=
  ["cellOptions"; "executeCode"] ++
  match c with
  | InteractiveCell =>
      ["setupElement"; "setupNewElement"; "setupMonacoEditor"; "setupNewMonacoEditor";
       "disableInteractiveCells"; "enableInteractiveCells"; "runCode"; "runCodeNE"]
  | OutputCell => ["displayOutput"]
  | SetupCell => ["runSetupCode"]
  end.

Section WithRunPython.

(** [getPyodide().runPython], as a function of the sources it has run so
    far: the value it returns or the error it throws. *)
Variable runPython : list jsstring -> jsstring -> Settled jsstring.

(** [BaseCell.executeCode]: the promise it returns, and the sources run. *)
Definition executeCode (cell : CellObject) (ran : list jsstring)
    : Settled jsstring * list jsstring :=
  (runPython ran (cell_code cell), ran ++ [cell_code cell]).

(** [executeAllCells]: [for (const cell of this.cells) await
    cell.executeCode()]. *)
Fixpoint executeAllCells (cells : list CellObject) (ran : list jsstring)
    : Outcome unit * list jsstring :=
  match cells with
  | [] => (Done tt, ran)
  | cell :: rest =>
      match executeCode cell ran with
      | (Fulfilled _, ran') => executeAllCells rest ran'
      | (Rejected e, ran') => (Thrown e, ran')
      end
  end.

(** [autoRunExecuteAllCells]: [for (const cell of this.cells) await
    cell.autoRunExecuteCode()]. Calling a property that is not defined
    throws before anything is run; were the method defined, it would be
    awaited like [executeCode]. *)
Fixpoint autoRunExecuteAllCells
    (autoRunExecuteCode : CellObject -> list jsstring -> Settled jsstring * list jsstring)
    (cells : list CellObject) (ran : list jsstring) : Outcome unit * list jsstring :=
  match cells with
  | [] => (Done tt, ran)
  | cell :: rest =>
      if bool_decide ("autoRunExecuteCode" ∈ method_names (cell_class cell)) then
        match autoRunExecuteCode cell ran with
        | (Fulfilled _, ran') => autoRunExecuteAllCells autoRunExecuteCode rest ran'
        | (Rejected e, ran') => (Thrown e, ran')
        end
      else (Thrown (TypeError "autoRunExecuteCode"), ran)
  end.

End WithRunPython.

End Registry.
Export Registry.

(** ** The copy button and the "add code block" button *)

Module Buttons.

(** [copyButton.onclick]: what is written to the clipboard, [data || ""]
    for the text of the editor. *)
Definition copyButton_onclick (tg : Target) (p : Page) : jsstring :=
  let data := editor_value (target tg p) in
  if truthy_string data then data else lit "".

(** What the "add code block" button changes: the id of the cell, the
    blocks appended at the insertion location (by the id they were created
    under), the buttons of those blocks that got a click handler, and the
    button itself. *)
Record Blocks : Type := mkBlocks {
  this_id : jsstring;
  appended_blocks : list jsstring;
  run_handlers : list jsstring;
  feedback_handlers : list jsstring;
  addCodeBlockButton_disabled : bool
}.

(** [setupNewElement]: the id of the cell gets the suffix [".2"], and a
    block created under the new id is appended. (The call that sets the
    label and state of the run buttons is defined outside the given
    sources and is not part of this state.) *)
Definition setupNewElement (b : Blocks) : Blocks :=
  let id := this_id b ++ lit ".2" in
  mkBlocks id (appended_blocks b ++ [id]) (run_handlers b) (feedback_handlers b)
           (addCodeBlockButton_disabled b).

(** [setupNewMonacoEditor]: the elements of the block are looked up by the
    current id; the run, copy and reset buttons get their handlers, and
    then the feedback button, which [setupNewElement] creates only when
    [globalThis.feedback == true], gets its own: on a null reference the
    assignment throws. *)
Definition setupNewMonacoEditor_handlers (cfg : Config) (b : Blocks) : Outcome unit * Blocks :=
  let b1 := mkBlocks (this_id b) (appended_blocks b) (run_handlers b ++ [this_id b])
                     (feedback_handlers b) (addCodeBlockButton_disabled b) in
  if feedback cfg
  then (Done tt,
        mkBlocks (this_id b1) (appended_blocks b1) (run_handlers b1)
                 (feedback_handlers b1 ++ [this_id b1]) (addCodeBlockButton_disabled b1))
  else (Thrown (TypeError "onclick"), b1).

(** [addCodeBlockButton.onclick]. *)
Definition addCodeBlockButton_onclick (cfg : Config) (b : Blocks) : Outcome unit * Blocks :=
  let b1 := setupNewElement b in
  match setupNewMonacoEditor_handlers cfg b1 with
  | (Done _, b2) =>
      (Done tt,
       mkBlocks (this_id b2) (appended_blocks b2) (run_handlers b2) (feedback_handlers b2) true)
  | (Thrown e, b2) => (Thrown e, b2)
  end.

(** A click on the button: a disabled button does not fire. *)
Definition click_addCodeBlockButton (cfg : Config) (b : Blocks) : Blocks :=
  if addCodeBlockButton_disabled b then b
  else snd (addCodeBlockButton_onclick cfg b).

(** The cell as constructed, before any block has been added. *)
Definition new_blocks (id : jsstring) : Blocks := mkBlocks id [] [] [] false.

End Buttons.
Export Buttons.

(** ** The settings panel of the remote-model backend *)

Module Settings.

(** [style.display] of an element of the panel. *)
Inductive Display : Type := Unset | DisplayNone | InlineBlock.

Record Panel : Type := mkPanel {
  sessionStorage : gmap string jsstring;
  apiKey_value : jsstring;               (* apiKeyInput.value *)
  baseUrl_value : jsstring;              (* baseUrlInput.value *)
  apiKeyInput_display : Display;
  saveButton_display : Display;
  baseUrlInput_display : Display;
  saveButton2_display : Display;
  panel_alerts : list string
}.

Definition is_none (d : Display) : bool :=
  match d with DisplayNone => true | _ => false end.

(** [sessionStorage.getItem(key)] taken as a condition: the key is present
    and its value is not the empty string. *)
Definition saved (key : string) (s : Panel) : option jsstring :=
  match sessionStorage s !! key with
  | Some v => if truthy_string v then Some v else None
  | None => None
  end.

(** [toggleSettings]. *)
Definition toggleSettings (s : Panel) : Panel :=
  let isVisible := negb (is_none (apiKeyInput_display s)) in
  let d := if isVisible then DisplayNone else InlineBlock in
  mkPanel (sessionStorage s) (apiKey_value s) (baseUrl_value s) d d d d (panel_alerts s).

(** [checkAndHideSettings]. *)
Definition checkAndHideSettings (s : Panel) : Panel :=
  match saved "groqApiKey" s, saved "baseUrlInput" s with
  | Some _, Some _ => toggleSettings s
  | _, _ => s
  end.

Definition panel_alert (text : string) (s : Panel) : Panel :=
  mkPanel (sessionStorage s) (apiKey_value s) (baseUrl_value s)
          (apiKeyInput_display s) (saveButton_display s) (baseUrlInput_display s)
          (saveButton2_display s) (panel_alerts s ++ [text]).

Definition setItem (key : string) (v : jsstring) (s : Panel) : Panel :=
  mkPanel (<[key := v]> (sessionStorage s)) (apiKey_value s) (baseUrl_value s)
          (apiKeyInput_display s) (saveButton_display s) (baseUrlInput_display s)
          (saveButton2_display s) (panel_alerts s).

(** The click listener of [saveButton]. *)
Definition saveButton_click (s : Panel) : Panel :=
  let groqApiKey := apiKey_value s in
  if truthy_string groqApiKey
  then checkAndHideSettings
         (panel_alert "API Key saved successfully!" (setItem "groqApiKey" groqApiKey s))
  else panel_alert "Please enter a valid API Key." s.

(** The click listener of [saveButton2]. *)
Definition saveButton2_click (s : Panel) : Panel :=
  let baseUrl := baseUrl_value s in
  if truthy_string baseUrl
  then checkAndHideSettings
         (panel_alert "Base Url saved successfully!" (setItem "baseUrlInput" baseUrl s))
  else panel_alert "Please enter a valid base Url." s.

(** The panel of a page that has just been loaded: the inputs are empty,
    no display is set, and the session storage is what the session left. *)
Definition loaded (storage : gmap string jsstring) : Panel :=
  mkPanel storage [] [] Unset Unset Unset Unset [].

(** The [DOMContentLoaded] listener of the panel. *)
Definition panel_DOMContentLoaded (s : Panel) : Panel :=
  match saved "groqApiKey" s, saved "baseUrlInput" s with
  | Some savedApiKey, Some savedBaseUrl =>
      toggleSettings
        (mkPanel (sessionStorage s) savedApiKey savedBaseUrl
                 (apiKeyInput_display s) (saveButton_display s) (baseUrlInput_display s)
                 (saveButton2_display s) (panel_alerts s))
  | _, _ => s
  end.

(** The [DOMContentLoaded] listener an editable cell registers: with the
    remote-model backend, the input is filled from the key ['apiKey']. *)
Definition cell_DOMContentLoaded (cfg : Config) (s : Panel) : Panel :=
  if bool_decide (backend cfg = lit "groq") then
    match saved "apiKey" s with
    | Some storedApiKey =>
        mkPanel (sessionStorage s) storedApiKey (baseUrl_value s)
                (apiKeyInput_display s) (saveButton_display s) (baseUrlInput_display s)
                (saveButton2_display s) (panel_alerts s)
    | None => s
    end
  else s.

(** What the user does with the panel. *)
Inductive PanelEvent : Type :=
  | TypeApiKey (text : jsstring)
  | TypeBaseUrl (text : jsstring)
  | ClickSaveApiKey
  | ClickSaveBaseUrl
  | ClickGear.

Definition panel_step (s : Panel) (ev : PanelEvent) : Panel :=
  match ev with
  | TypeApiKey text =>
      mkPanel (sessionStorage s) text (baseUrl_value s)
              (apiKeyInput_display s) (saveButton_display s) (baseUrlInput_display s)
              (saveButton2_display s) (panel_alerts s)
  | TypeBaseUrl text =>
      mkPanel (sessionStorage s) (apiKey_value s) text
              (apiKeyInput_display s) (saveButton_display s) (baseUrlInput_display s)
              (saveButton2_display s) (panel_alerts s)
  | ClickSaveApiKey => saveButton_click s
  | ClickSaveBaseUrl => saveButton2_click s
  | ClickGear => toggleSettings s
  end.

Definition panel_run (s : Panel) (evs : list PanelEvent) : Panel :=
  fold_left panel_step evs s.

End Settings.
Export Settings.

(** ** The document settings *)

Module DocumentSettings.

(** [list.indexOf(x)]: the first index of [x], or [None] for -1. *)
Fixpoint indexOf (l : list jsstring) (x : jsstring) : option nat :=
  match l with
  | [] => None
  | y :: rest =>
      if bool_decide (y = x) then Some 0%nat
      else option_map S (indexOf rest x)
  end.

(** [qpyodideSetupPythonPackages]:
    [!(qpyodideInstallPythonPackagesList.indexOf("") !== -1)]. *)
Definition qpyodideSetupPythonPackages (qpyodideInstallPythonPackagesList : list jsstring) : bool :=
  negb (negb (bool_decide (indexOf qpyodideInstallPythonPackagesList (lit "") = None))).

End DocumentSettings.
Export DocumentSettings.

(** ** Shapes of the replies of a feedback backend *)

Module Replies.

(** The header the handler puts before a reply. *)
Definition feedback_header : Node := Div (Some "feedback-label") (lit "AI-Feedback:").

(** A reply to the model-list request that yields no list of ids: the
    request failed, the body is null, or it has no [data]. *)
Definition no_model_list (r : Settled (option Json)) : bool :=
  match r with
  | Fulfilled (Some j) => match data j with Some _ => false | None => true end
  | _ => true
  end.

(** A body whose first choice has a message, with the given content
    ([None]: the message has no [content]). *)
Definition first_message (c : option jsstring) (rest : list Choice)
    (models : option (list jsstring)) : option Json :=
  Some (mkJson models (Some (mkChoice (Some (mkMessage c)) :: rest))).

End Replies.
Export Replies.

(** ** What a handler leaves as it is *)

Module Frame.

(** A handler keeps an observation of the page when the observation is
    the same after it as before, whatever it returns or throws. *)
Definition keeps {A B : Type} (obs : Page -> B) (m : M A) : Prop :=
  forall p, obs (snd (m p)) = obs p.

(** A target without its feedback area. *)
Definition besides_feedback (t : RunTarget) : jsstring * jsstring * Region * Region :=
  (editor_value t, qpyodideinitialCode t, outputCodeDiv t, outputGraphDiv t).

(** The page without the feedback area of the given target, the requests
    and the alerts. *)
Definition outside_feedback (tg : Target) (p : Page) :=
  (this_props p, run_buttons p, qpyodideOutput p, figures p, pyodideMplTarget p,
   py_calls p, besides_feedback (primary p), besides_feedback (appended p),
   match tg with
   | Primary => outputFeedbackDiv (appended p)
   | Appended => outputFeedbackDiv (primary p)
   end).

End Frame.
Export Frame.

(** ** Further collaborators and pages *)

Module MoreScenarios.

(** A server whose every reply has a first choice with a message that has
    no content. *)
Definition net_no_content : Network :=
  mkNetwork (fun _ => Fulfilled (first_message None [] None)).

(** Settings whose backend is neither of the two the handler knows. *)
Definition cfg_other : Config :=
  mkConfig true (Some (lit "false")) None (lit "Groq") [] [].

End MoreScenarios.
Export MoreScenarios.

(** ** From the settings panel to the feedback handler *)

Module PanelInputs.

(** The settings a handler reads, with the two inputs as the panel has
    them. *)
Definition with_inputs (cfg : Config) (s : Panel) : Config :=
  mkConfig (feedback cfg) (read_only cfg) (fig_cap cfg) (backend cfg)
           (baseUrl_value s) (apiKey_value s).

(** The suffix the id of a cell has after [n] added blocks. *)
Fixpoint id_suffix (n : nat) : jsstring :=
  match n with
  | O => []
  | S k => id_suffix k ++ lit ".2"
  end.

End PanelInputs.
Export PanelInputs.

(** ** Overlapping runs, between their suspension points *)

Module Interleaving.

Local Open Scope js_scope.

(** Where a call of [runCode] / [runCodeNE] that went past the guard is
    waiting: at [await mainPyodide]; at [await
    mainPyodide.loadPackagesFromImports(code)], with the figure the call
    created and what the awaited promise settles to; at [await
    mainPyodide.runPythonAsync(code)], before the interpreter has executed
    the source and after it. *)
Inductive Phase : Type :=
  | AtMainPyodide
  | AtLoadPackages (graphFigure : nat) (loaded : Settled unit)
  | AtRunPython (graphFigure : nat) (eff : RunEffect)
  | AtSettled (graphFigure : nat) (output : Settled jsstring).

(** A call in flight: its target, the text it was called with, and where
    it waits. *)
Record Suspended : Type := mkSuspended {
  s_target : Target;
  s_code : jsstring;
  s_phase : Phase
}.

(** The page, and the calls in flight on it. *)
Record Pool : Type := mkPool {
  pool_page : Page;
  suspended : list Suspended
}.

(** A trigger of a run on a target, or the next move of one of the calls
    in flight. *)
Inductive Move : Type :=
  | Start (tg : Target)
  | Advance (i : nat).

(** The moves from which a call reaches its end: it is resumed in the
    [catch] when resolving the dependencies failed, or after the [await]
    of [runPythonAsync]. *)
Definition ends_run (ph : Phase) : bool :=
  match ph with
  | AtLoadPackages _ (Rejected _) => true
  | AtSettled _ _ => true
  | _ => false
  end.

(** What no call of [runCode] / [runCodeNE] writes: the text and the
    initial snapshot of both editors, both feedback areas, the requests
    and the alerts. *)
Definition beyond_runs (p : Page) :=
  (editor_value (primary p), qpyodideinitialCode (primary p), outputFeedbackDiv (primary p),
   editor_value (appended p), qpyodideinitialCode (appended p), outputFeedbackDiv (appended p),
   requests p, alerts p).

(** The target whose handlers a move belongs to. *)
Definition move_target (pl : Pool) (mv : Move) : option Target :=
  match mv with
  | Start tg => Some tg
  | Advance i => s_target <$> suspended pl !! i
  end.

Section WithInterpreter.

Variable py : Interpreter.
Variable cfg : Config.
Variable formatOutput : list OutputRecord -> jsstring.

(** [runCode] from the end of its [try] statement to its end: the block
    and the figure are rendered and the cell is unlocked. *)
Definition runCode_render (tg : Target) (graphFigure : nat) : M unit :=
  result <- qpyodideRetrieveOutput formatOutput;;
  on_outputCodeDiv tg (fun r => set_innerHTML r []);;
  on_outputGraphDiv tg (fun r => set_innerHTML r []);;
  pre <- (if test_S result
          then on_outputCodeDiv tg classList_add;; ret (Pre false (Some result))
          else on_outputCodeDiv tg classList_remove;; ret (Pre true None));;
  on_outputCodeDiv tg (fun r => appendChild r pre);;
  children <- figure_children graphFigure;;
  (if bool_decide (0 < length children)%nat
   then
     let figcaption := if truthy_prop (fig_cap cfg) then fig_cap cfg else None in
     on_outputGraphDiv tg (fun r => appendChild r (Figure children figcaption));;
     on_outputGraphDiv tg classList_add
   else on_outputGraphDiv tg classList_remove);;
  enableInteractiveCells.

(** One move of a call in flight: the statements of [runCode] from the
    [await] the call waits at up to the next one, or to the end; while the
    call waits for [runPythonAsync], the interpreter executes the source.
    The result is where the call waits next; [None]: it has ended. *)
Definition advance (tg : Target) (code : jsstring) (ph : Phase) : M (option Phase) :=
  match ph with
  | AtMainPyodide =>
      await (mainPyodide py);;
      qpyodideResetOutputArray;;
      graphFigure <- createElement_figure;;
      modify (with_pyodideMplTarget (Some graphFigure));;
      calls <- read py_calls;;
      modify (with_py_calls (calls ++ [LoadPackagesFromImports code]));;
      ret (Some (AtLoadPackages graphFigure (loadPackagesFromImports py calls code)))
  | AtLoadPackages graphFigure (Fulfilled _) =>
      calls <- read py_calls;;
      modify (with_py_calls (calls ++ [RunPythonAsync code]));;
      ret (Some (AtRunPython graphFigure (runPythonAsync py calls code)))
  | AtLoadPackages graphFigure (Rejected err) =>
      qpyodideAddToOutputArray (Caught err) "stderr";;
      runCode_render tg graphFigure;;
      ret None
  | AtRunPython graphFigure eff =>
      modify (fun p => with_qpyodideOutput (qpyodideOutput p ++ emitted eff) p);;
      modify (draw (drawn_elements eff));;
      ret (Some (AtSettled graphFigure (settles eff)))
  | AtSettled graphFigure (Fulfilled output) =>
      qpyodideAddToOutputArray (Value output) "stdout";;
      runCode_render tg graphFigure;;
      ret None
  | AtSettled graphFigure (Rejected err) =>
      qpyodideAddToOutputArray (Caught err) "stderr";;
      runCode_render tg graphFigure;;
      ret None
  end.

(** A call that makes all its moves one after the other, with no move of
    another call in between. *)
Fixpoint run_to_end (moves : nat) (tg : Target) (code : jsstring) (ph : Phase) : M unit :=
  match moves with
  | O => ret tt
  | S n =>
      next <- advance tg code ph;;
      match next with
      | None => ret tt
      | Some ph' => run_to_end n tg code ph'
      end
  end.

(** A trigger calls [runCode] with the text of the editor and then marks
    the output area; the call runs up to its first [await]. A move of a
    call in flight changes where it waits, or ends it; a call whose
    [await] throws ends as well. *)
Definition pool_step (pl : Pool) (mv : Move) : Pool :=
  match mv with
  | Start tg =>
      let code := editor_value (target tg (pool_page pl)) in
      let '(entered, p1) := runCode_enter (pool_page pl) in
      let p2 := snd (on_outputCodeDiv tg classList_add p1) in
      match entered with
      | Done true => mkPool p2 (suspended pl ++ [mkSuspended tg code AtMainPyodide])
      | _ => mkPool p2 (suspended pl)
      end
  | Advance i =>
      match suspended pl !! i with
      | None => pl
      | Some r =>
          match advance (s_target r) (s_code r) (s_phase r) (pool_page pl) with
          | (Done (Some ph), p1) =>
              mkPool p1 (<[i := mkSuspended (s_target r) (s_code r) ph]> (suspended pl))
          | (_, p1) => mkPool p1 (delete i (suspended pl))
          end
      end
  end.

Definition run_moves (pl : Pool) (mvs : list Move) : Pool :=
  fold_left pool_step mvs pl.

End WithInterpreter.

End Interleaving.
Export Interleaving.

(** ** Two runs that overlap *)

Module OverlapScenarios.

(** Both targets of a page are triggered; the first call makes its first
    three moves before the second makes any, and is about to end. *)
Definition first_run_about_to_end : Pool :=
  run_moves py_echo cfg_default fmt_concat (mkPool (page_of cfg_default) [])
    [Start Primary; Start Appended; Advance 0; Advance 0; Advance 0].

(** Both targets are triggered; the second call creates its figure while
    the first waits for the interpreter to execute its source, which then
    draws; the first call is about to end. *)
Definition second_figure_installed_meanwhile : Pool :=
  run_moves py_echo cfg_default fmt_concat (mkPool (page_of cfg_default) [])
    [Start Primary; Start Appended; Advance 0; Advance 0; Advance 1; Advance 0].

End OverlapScenarios.
Export OverlapScenarios.

(** * Properties *)

(** ** Reasoning about pages *)

Ltac page_simpl :=
  cbv beta iota zeta delta
    [with_target with_this_props with_run_buttons with_qpyodideOutput
     with_figures with_pyodideMplTarget with_py_calls with_requests
     with_alerts with_outputCodeDiv with_outputFeedbackDiv
     with_outputGraphDiv with_editor_value target set_innerHTML
     appendChild classList_add classList_remove
     this_props primary appended run_buttons qpyodideOutput figures
     pyodideMplTarget py_calls requests alerts editor_value
     qpyodideinitialCode outputCodeDiv outputFeedbackDiv outputGraphDiv
     innerHTML has_content fst snd] in *;
  cbn [app] in *.

Ltac monad_simpl :=
  unfold bind, try_catch, read, modify, ret, throw, await in *.

(** ** The engine *)

Module EngineFacts.

Lemma fresh_figure_drawn (figs : list (list N)) (els : list N) :
  alter (fun kids => kids ++ els) (length figs) (figs ++ [[]]) = figs ++ [els].
Proof.
  induction figs as [|f figs IH]; simpl; [reflexivity|].
  f_equal. exact IH.
Qed.

Lemma fresh_figure_children (figs : list (list N)) (els : list N) :
  (figs ++ [els]) !! length figs = Some els.
Proof. induction figs as [|f figs IH]; simpl; [reflexivity | exact IH]. Qed.

Section Run.

Variable py : Interpreter.
Variable cfg : Config.
Variable formatOutput : list OutputRecord -> jsstring.

Lemma run_and_capture_spec (code : jsstring) (p : Page) :
  run_and_capture py code p =
  (Done tt,
   with_qpyodideOutput (qpyodideOutput p ++ run_records py (py_calls p) code)
     (draw (run_drawn py (py_calls p) code)
        (with_py_calls (py_calls p ++ run_calls py (py_calls p) code) p))).
Proof.
  destruct p as [props pr ap bt out figs mpl calls rq al].
  unfold run_and_capture, run_records, run_drawn, run_calls,
    await_loadPackagesFromImports, await_runPythonAsync, qpyodideAddToOutputArray, draw.
  monad_simpl. cbn.
  destruct (loadPackagesFromImports py calls code) as [[]|e]; cbn.
  - destruct (runPythonAsync py (calls ++ [LoadPackagesFromImports code]) code)
      as [em dr [v|e]]; cbn; destruct mpl; cbn; rewrite <- ?app_assoc; reflexivity.
  - destruct mpl; cbn; [|reflexivity].
    unfold with_figures; cbn. rewrite list_alter_id; [reflexivity|].
    intros kids. apply app_nil_r.
Qed.

(** A call that is not stopped at the guard locks the cell and disables
    every run button. *)
Lemma runCode_enter_unlocked (p : Page) :
  truthy_flag (this_props p !! "executeLock") = false ->
  runCode_enter p =
  (Done true,
   with_run_buttons (map (fun _ => true) (run_buttons p))
     (with_this_props (<["executionLock" := true]> (this_props p)) p)).
Proof.
  intros Hguard. unfold runCode_enter, executeLock, disableInteractiveCells.
  monad_simpl. rewrite Hguard. reflexivity.
Qed.

(** The whole of [runCode] after its first [await], when the interpreter
    is ready. *)
Lemma runCode_resume_fulfilled (tg : Target) (code : jsstring) (p : Page) :
  mainPyodide py = Fulfilled tt ->
  runCode_resume py cfg formatOutput tg code p =
  (Done tt,
   let records := run_records py (py_calls p) code in
   let drawn := run_drawn py (py_calls p) code in
   with_run_buttons (map (fun _ => false) (run_buttons p))
     (with_this_props (<["executionLock" := false]> (this_props p))
        (with_target tg
           (with_outputGraphDiv (rendered_graph cfg drawn)
              (with_outputCodeDiv (rendered_output (formatOutput records)) (target tg p)))
           (with_qpyodideOutput records
              (with_figures (figures p ++ [drawn])
                 (with_pyodideMplTarget (Some (length (figures p)))
                    (with_py_calls (py_calls p ++ run_calls py (py_calls p) code) p))))))).
Proof.
  intros Hready. unfold runCode_resume. rewrite Hready.
  unfold bind at 1. cbn [await ret].
  unfold bind at 1. unfold qpyodideResetOutputArray at 1. cbn [modify].
  unfold bind at 1. unfold createElement_figure at 1.
  unfold bind at 1. cbn [read].
  unfold bind at 1. cbn [modify]. cbn [ret].
  unfold bind at 1. cbn [modify].
  unfold bind at 1. rewrite run_and_capture_spec.
  destruct p as [props pr ap bt out figs mpl calls rq al].
  unfold draw; page_simpl. rewrite fresh_figure_drawn.
  unfold qpyodideRetrieveOutput, figure_children, enableInteractiveCells,
    on_outputCodeDiv, on_outputGraphDiv, rendered_output, rendered_graph.
  destruct tg; monad_simpl; page_simpl;
    destruct (test_S (formatOutput (run_records py calls code))); page_simpl;
    rewrite fresh_figure_children; cbn [default];
    destruct (run_drawn py calls code); reflexivity.
Qed.

(** When the interpreter failed to initialise, the [await] throws and
    nothing after it is executed. *)
Lemma runCode_resume_rejected (tg : Target) (code : jsstring) (p : Page) (e : Exn) :
  mainPyodide py = Rejected e ->
  runCode_resume py cfg formatOutput tg code p = (Thrown e, p).
Proof.
  intros Hfail. unfold runCode_resume. rewrite Hfail. reflexivity.
Qed.

(** [runCode] as a whole, for a call that is not stopped at the guard. *)
Lemma runCode_on_unlocked (tg : Target) (code : jsstring) (p : Page) :
  truthy_flag (this_props p !! "executeLock") = false ->
  runCode_on py cfg formatOutput tg code p =
  runCode_resume py cfg formatOutput tg code
    (with_run_buttons (map (fun _ => true) (run_buttons p))
       (with_this_props (<["executionLock" := true]> (this_props p)) p)).
Proof.
  intros Hguard. unfold runCode_on, bind.
  rewrite (runCode_enter_unlocked p Hguard). reflexivity.
Qed.

End Run.

End EngineFacts.

Section RunCode.

Variable py : Interpreter.
Variable cfg : Config.
Variable formatOutput : list OutputRecord -> jsstring.

Import EngineFacts.

(** The state [runCode] ends in, for a call that is not stopped at the
    guard, when the interpreter is ready. *)
Lemma runCode_on_fulfilled (tg : Target) (code : jsstring) (p : Page) :
  mainPyodide py = Fulfilled tt ->
  truthy_flag (this_props p !! "executeLock") = false ->
  runCode_on py cfg formatOutput tg code p =
  (Done tt,
   let records := run_records py (py_calls p) code in
   let drawn := run_drawn py (py_calls p) code in
   with_run_buttons (map (fun _ => false) (run_buttons p))
     (with_this_props
        (<["executionLock" := false]> (<["executionLock" := true]> (this_props p)))
        (with_target tg
           (with_outputGraphDiv (rendered_graph cfg drawn)
              (with_outputCodeDiv (rendered_output (formatOutput records)) (target tg p)))
           (with_qpyodideOutput records
              (with_figures (figures p ++ [drawn])
                 (with_pyodideMplTarget (Some (length (figures p)))
                    (with_py_calls (py_calls p ++ run_calls py (py_calls p) code) p))))))).
Proof.
  intros Hready Hguard.
  rewrite runCode_on_unlocked by exact Hguard.
  rewrite runCode_resume_fulfilled by exact Hready.
  destruct p as [props pr ap bt out figs mpl calls rq al].
  destruct tg; page_simpl; rewrite map_map; reflexivity.
Qed.

(** C7: in a run via [runCode] the drained buffer is one block; when the
    block has a character that is not white space the output area holds
    exactly one visible <pre> with the block and is marked 'has-content',
    otherwise it holds exactly one hidden, empty <pre> and the mark is
    removed. Whatever the area held before is gone. *)
Theorem runCode_renders_block (tg : Target) (code : jsstring) (p : Page) :
  mainPyodide py = Fulfilled tt ->
  truthy_flag (this_props p !! "executeLock") = false ->
  let after := runCode_on py cfg formatOutput tg code p in
  let block := formatOutput (run_records py (py_calls p) code) in
  fst after = Done tt /\
  qpyodideOutput (snd after) = run_records py (py_calls p) code /\
  outputCodeDiv (target tg (snd after)) =
    (if test_S block
     then {| innerHTML := [Pre false (Some block)]; has_content := true |}
     else {| innerHTML := [Pre true None]; has_content := false |}).
Proof.
  intros Hready Hguard after block. subst after block.
  rewrite runCode_on_fulfilled by assumption.
  destruct p as [props pr ap bt out figs mpl calls rq al].
  destruct tg; page_simpl; repeat split; reflexivity.
Qed.

(** C8: in a run via [runCode] the elements drawn go into a figure created
    for this run. When there is at least one, the graph area holds exactly
    that one figure, whatever it held before, and is marked 'has-content';
    the figure carries a caption exactly when the cell's 'fig-cap' option
    is set (truthy), and the caption is the option's value. When nothing
    was drawn, the mark is removed from the graph area. *)
Theorem runCode_renders_figure (tg : Target) (code : jsstring) (p : Page) :
  mainPyodide py = Fulfilled tt ->
  truthy_flag (this_props p !! "executeLock") = false ->
  let after := runCode_on py cfg formatOutput tg code p in
  let drawn := run_drawn py (py_calls p) code in
  let figcaption := if truthy_prop (fig_cap cfg) then fig_cap cfg else None in
  figures (snd after) !! length (figures p) = Some drawn /\
  (drawn <> [] ->
   outputGraphDiv (target tg (snd after)) =
     {| innerHTML := [Figure drawn figcaption]; has_content := true |}) /\
  (drawn = [] ->
   outputGraphDiv (target tg (snd after)) = {| innerHTML := []; has_content := false |}) /\
  (is_Some figcaption <-> truthy_prop (fig_cap cfg) = true).
Proof.
  intros Hready Hguard after drawn figcaption. subst after drawn figcaption.
  rewrite runCode_on_fulfilled by assumption.
  destruct p as [props pr ap bt out figs mpl calls rq al].
  split; [destruct tg; page_simpl; apply fresh_figure_children|].
  split; [|split].
  - intros Hdrawn. unfold rendered_graph.
    destruct (run_drawn py _ code) as [|d ds] eqn:E; [congruence|].
    destruct tg; page_simpl; rewrite ?E; reflexivity.
  - intros Hnone. unfold rendered_graph.
    destruct tg; page_simpl; rewrite Hnone; reflexivity.
  - destruct (fig_cap cfg) as [[|c s]|]; cbn; split; intros H;
      try reflexivity; try discriminate; try (eexists; reflexivity);
      destruct H; discriminate.
Qed.

(** C2, as the code has it: when resolving the dependencies of the source
    text fails, the failure is not propagated but captured as a stderr
    record; the interpreter is not asked to run the source text; the run
    goes on to render the captured block and to release the lock. *)
Theorem runCode_dependency_failure (tg : Target) (code : jsstring) (p : Page) (err : Exn) :
  mainPyodide py = Fulfilled tt ->
  truthy_flag (this_props p !! "executeLock") = false ->
  loadPackagesFromImports py (py_calls p) code = Rejected err ->
  let after := runCode_on py cfg formatOutput tg code p in
  fst after = Done tt /\
  py_calls (snd after) = py_calls p ++ [LoadPackagesFromImports code] /\
  qpyodideOutput (snd after) = [mkRecord (Caught err) "stderr"] /\
  outputCodeDiv (target tg (snd after)) =
    rendered_output (formatOutput [mkRecord (Caught err) "stderr"]) /\
  this_props (snd after) !! "executionLock" = Some false /\
  run_buttons (snd after) = map (fun _ => false) (run_buttons p).
Proof.
  intros Hready Hguard Hdeps after. subst after.
  rewrite runCode_on_fulfilled by assumption.
  unfold run_calls, run_records. rewrite Hdeps.
  destruct p as [props pr ap bt out figs mpl calls rq al].
  destruct tg; page_simpl; repeat split; try reflexivity; apply lookup_insert_eq.
Qed.

(** C3, as the code has it: when the interpreter is ready, [runCode]
    returns normally, an error raised by the source text is the last
    record of the buffer, on stderr, and the lock is released and every
    run button enabled; when awaiting the interpreter fails, the failure
    leaves [runCode] and the lock stays set and every run button
    disabled. *)
Theorem runCode_lock_release (tg : Target) (code : jsstring) (p : Page) :
  truthy_flag (this_props p !! "executeLock") = false ->
  let after := runCode_on py cfg formatOutput tg code p in
  match mainPyodide py with
  | Fulfilled _ =>
      fst after = Done tt /\
      (forall err,
         loadPackagesFromImports py (py_calls p) code = Fulfilled tt ->
         settles (runPythonAsync py (py_calls p ++ [LoadPackagesFromImports code]) code)
           = Rejected err ->
         last (qpyodideOutput (snd after)) = Some (mkRecord (Caught err) "stderr")) /\
      this_props (snd after) !! "executionLock" = Some false /\
      run_buttons (snd after) = map (fun _ => false) (run_buttons p)
  | Rejected reason =>
      fst after = Thrown reason /\
      this_props (snd after) !! "executionLock" = Some true /\
      run_buttons (snd after) = map (fun _ => true) (run_buttons p)
  end.
Proof.
  intros Hguard after. subst after.
  destruct (mainPyodide py) as [[]|reason] eqn:Hready.
  - rewrite runCode_on_fulfilled by assumption.
    destruct p as [props pr ap bt out figs mpl calls rq al].
    split; [reflexivity|]. split; [|split].
    + intros err Hdeps Hraise. unfold run_records. page_simpl.
      destruct tg; page_simpl; rewrite Hdeps, Hraise; apply last_snoc.
    + destruct tg; page_simpl; apply lookup_insert_eq.
    + destruct tg; page_simpl; reflexivity.
  - rewrite runCode_on_unlocked by assumption.
    rewrite (runCode_resume_rejected py cfg formatOutput tg code _ reason Hready).
    destruct p as [props pr ap bt out figs mpl calls rq al].
    page_simpl. repeat split. apply lookup_insert_eq.
Qed.

End RunCode.

(** A run of [print(1+1)] on an interpreter that echoes its source: the
    output area shows the block. *)
Lemma runCode_renders_block_witness :
  mainPyodide py_echo = Fulfilled tt /\
  truthy_flag (this_props (page_of cfg_default) !! "executeLock") = false /\
  outputCodeDiv
    (primary (snd (runCode py_echo cfg_default fmt_concat source (page_of cfg_default)))) =
  {| innerHTML := [Pre false (Some source)]; has_content := true |}.
Proof.
  split; [reflexivity|]. split; [reflexivity|].
  exact (proj2 (proj2 (runCode_renders_block py_echo cfg_default fmt_concat Primary source
                         (page_of cfg_default) eq_refl eq_refl))).
Defined.

(** The same run with a caption configured: one figure, with the caption. *)
Lemma runCode_renders_figure_witness :
  mainPyodide py_echo = Fulfilled tt /\
  truthy_flag (this_props (page_of cfg_captioned) !! "executeLock") = false /\
  outputGraphDiv
    (primary (snd (runCode py_echo cfg_captioned fmt_concat source (page_of cfg_captioned)))) =
  {| innerHTML := [Figure [1] (Some (lit "Figure 1"))]; has_content := true |}.
Proof.
  split; [reflexivity|]. split; [reflexivity|].
  refine (proj1 (proj2 (runCode_renders_figure py_echo cfg_captioned fmt_concat Primary source
                          (page_of cfg_captioned) eq_refl eq_refl)) _).
  discriminate.
Defined.

(** C2 fails as stated: with an interpreter whose dependency resolution
    fails, [runCode] returns normally and the interpreter was never asked
    to run the source text. *)
Lemma runCode_skips_source_when_dependencies_fail :
  loadPackagesFromImports py_no_deps [] source = Rejected (Raised (lit "Failed to fetch")) /\
  fst (runCode py_no_deps cfg_default fmt_concat source (page_of cfg_default)) = Done tt /\
  py_calls (snd (runCode py_no_deps cfg_default fmt_concat source (page_of cfg_default))) =
    [LoadPackagesFromImports source] /\
  (RunPythonAsync source ∉
     py_calls (snd (runCode py_no_deps cfg_default fmt_concat source (page_of cfg_default)))).
Proof.
  split; [reflexivity|]. split; [reflexivity|]. split; [reflexivity|].
  intros Hin. vm_compute in Hin.
  apply list_elem_of_In in Hin. destruct Hin as [H|[]]. discriminate H.
Qed.

Lemma runCode_dependency_failure_witness :
  mainPyodide py_no_deps = Fulfilled tt /\
  truthy_flag (this_props (page_of cfg_default) !! "executeLock") = false /\
  loadPackagesFromImports py_no_deps (py_calls (page_of cfg_default)) source =
    Rejected (Raised (lit "Failed to fetch")) /\
  qpyodideOutput (snd (runCode py_no_deps cfg_default fmt_concat source (page_of cfg_default))) =
    [mkRecord (Caught (Raised (lit "Failed to fetch"))) "stderr"].
Proof.
  split; [reflexivity|]. split; [reflexivity|]. split; [reflexivity|].
  exact (proj1 (proj2 (proj2 (runCode_dependency_failure py_no_deps cfg_default fmt_concat
                          Primary source (page_of cfg_default) _ eq_refl eq_refl eq_refl)))).
Defined.

(** C3 fails as stated: when the interpreter failed to initialise, the
    failure leaves [runCode], the lock flag stays set and both run buttons
    of the page stay disabled. *)
Lemma runCode_keeps_lock_when_interpreter_fails :
  fst (runCode py_not_ready cfg_default fmt_concat source (page_of cfg_default)) =
    Thrown (Raised (lit "Failed to load Pyodide")) /\
  this_props (snd (runCode py_not_ready cfg_default fmt_concat source (page_of cfg_default)))
    !! "executionLock" = Some true /\
  run_buttons (snd (runCode py_not_ready cfg_default fmt_concat source (page_of cfg_default))) =
    [true; true].
Proof. vm_compute. repeat split. Qed.

(** A source that raises: the error is the record on stderr, the lock is
    released and both run buttons are enabled. *)
Lemma runCode_lock_release_witness :
  truthy_flag (this_props (page_of cfg_default) !! "executeLock") = false /\
  fst (runCode py_raises cfg_default fmt_concat source (page_of cfg_default)) = Done tt /\
  this_props (snd (runCode py_raises cfg_default fmt_concat source (page_of cfg_default)))
    !! "executionLock" = Some false /\
  run_buttons (snd (runCode py_raises cfg_default fmt_concat source (page_of cfg_default))) =
    [false; false].
Proof.
  split; [reflexivity|].
  pose proof (runCode_lock_release py_raises cfg_default fmt_concat Primary source
                (page_of cfg_default) eq_refl) as H.
  cbn beta zeta iota delta [mainPyodide py_raises] in H.
  destruct H as (Hdone & _ & Hlock & Hbuttons).
  split; [exact Hdone|]. split; [exact Hlock | exact Hbuttons].
Defined.

(** ** The run lock *)

Section Lock.

Variable py : Interpreter.
Variable cfg : Config.
Variable formatOutput : list OutputRecord -> jsstring.

Import EngineFacts.

(** The property the guard reads is none of those the constructor sets. *)
Lemma constructor_leaves_executeLock_undefined :
  constructor_props !! "executeLock" = None.
Proof. reflexivity. Qed.

(** No step of a session defines it: locking and unlocking write
    [executionLock]. *)
Lemma step_leaves_executeLock_undefined (s : Session) (ev : Event) :
  this_props (page s) !! "executeLock" = None ->
  this_props (page (step py cfg formatOutput s ev)) !! "executeLock" = None.
Proof.
  intros Hundef. destruct s as [p fl]. cbn [page] in *.
  destruct ev as [tg|]; cbn [step page in_flight].
  - rewrite runCode_enter_unlocked by (rewrite Hundef; reflexivity).
    destruct p as [props pr ap bt out figs mpl calls rq al].
    unfold on_outputCodeDiv; monad_simpl; destruct tg; page_simpl; cbn [page];
      page_simpl; rewrite lookup_insert_ne by discriminate; exact Hundef.
  - destruct fl as [|[tg code] rest]; [exact Hundef|]. cbn [page].
    destruct (mainPyodide py) as [[]|reason] eqn:Hready.
    + rewrite runCode_resume_fulfilled by exact Hready.
      destruct p as [props pr ap bt out figs mpl calls rq al].
      destruct tg; page_simpl; rewrite lookup_insert_ne by discriminate; exact Hundef.
    + rewrite (runCode_resume_rejected py cfg formatOutput tg code p reason Hready).
      exact Hundef.
Qed.

Lemma run_events_leave_executeLock_undefined (evs : list Event) (s : Session) :
  this_props (page s) !! "executeLock" = None ->
  this_props (page (run_events py cfg formatOutput s evs)) !! "executeLock" = None.
Proof.
  revert s. induction evs as [|ev evs IH]; intros s Hundef; [exact Hundef|].
  cbn [run_events fold_left]. apply IH, step_leaves_executeLock_undefined, Hundef.
Qed.

(** Whatever happened to a cell since it was constructed, a trigger is
    never stopped at the guard: it adds a run to those in flight. *)
Lemma trigger_always_enters (code : jsstring) (buttons : list bool)
    (evs : list Event) (tg : Target) :
  let s := run_events py cfg formatOutput
             (mkSession (new_InteractiveCell cfg code buttons) []) evs in
  in_flight (step py cfg formatOutput s (Trigger tg)) =
  in_flight s ++ [(tg, editor_value (target tg (page s)))].
Proof.
  intros s.
  assert (Hundef : this_props (page s) !! "executeLock" = None).
  { apply run_events_leave_executeLock_undefined. reflexivity. }
  cbn [step]. rewrite runCode_enter_unlocked by (rewrite Hundef; reflexivity).
  reflexivity.
Qed.

End Lock.

(** C1 does not hold of the code: on a page whose cell has just been
    constructed, a first trigger marks the cell as running
    ([executionLock] is true) and its run is in flight; a second trigger
    that arrives before the first run is resumed goes past the guard,
    which reads [executeLock], and a second run is in flight. *)
Theorem second_trigger_not_dropped :
  let s1 := step py_echo cfg_default fmt_concat
              (mkSession (page_of cfg_default) []) (Trigger Primary) in
  let s2 := step py_echo cfg_default fmt_concat s1 (Trigger Primary) in
  this_props (page s1) !! "executionLock" = Some true /\
  this_props (page s1) !! "executeLock" = None /\
  in_flight s1 = [(Primary, source)] /\
  in_flight s2 = [(Primary, source); (Primary, source)].
Proof. vm_compute. repeat split. Qed.

(** ** Reset *)

(** With a feedback area in the document, Reset restores the text of the
    editor to its initial value and clears each of the three areas exactly
    when it is marked; no mark changes. *)
Lemma reset_with_feedback_area (tg : Target) (p : Page) (fb : Region) :
  outputFeedbackDiv (target tg p) = Some fb ->
  resetButton_onclick tg p =
  (Done tt,
   with_target tg
     {| editor_value := qpyodideinitialCode (target tg p);
        qpyodideinitialCode := qpyodideinitialCode (target tg p);
        outputCodeDiv := cleared_if_marked (outputCodeDiv (target tg p));
        outputFeedbackDiv := Some (cleared_if_marked fb);
        outputGraphDiv := cleared_if_marked (outputGraphDiv (target tg p)) |}
     p).
Proof.
  intros Hfb.
  destruct p as [props pr ap bt out figs mpl calls rq al].
  unfold resetButton_onclick, on_outputCodeDiv, on_outputGraphDiv, classList_contains,
    cleared_if_marked.
  destruct tg; page_simpl.
  - destruct pr as [ev ic oc ofb og]; page_simpl; subst ofb.
    monad_simpl; page_simpl.
    destruct fb as [fbc []], oc as [occ []], og as [ogc []]; reflexivity.
  - destruct ap as [ev ic oc ofb og]; page_simpl; subst ofb.
    monad_simpl; page_simpl.
    destruct fb as [fbc []], oc as [occ []], og as [ogc []]; reflexivity.
Qed.

(** C10: with [globalThis.feedback] not true, neither target of a
    constructed cell has a feedback area, so the reference is null; on a
    target whose feedback area is null, Reset restores the text of the
    editor and then throws on reading the class list of the null area: the
    output area and the graph area are left exactly as they were. *)
Theorem reset_without_feedback_area (cfg : Config) (code : jsstring) (tg : Target) (p : Page) :
  feedback cfg = false ->
  outputFeedbackDiv (setupMonacoEditor cfg code) = None /\
  outputFeedbackDiv (setupNewMonacoEditor cfg) = None /\
  (outputFeedbackDiv (target tg p) = None ->
   fst (resetButton_onclick tg p) = Thrown (TypeError "classList") /\
   editor_value (target tg (snd (resetButton_onclick tg p))) =
     qpyodideinitialCode (target tg p) /\
   outputCodeDiv (target tg (snd (resetButton_onclick tg p))) = outputCodeDiv (target tg p) /\
   outputGraphDiv (target tg (snd (resetButton_onclick tg p))) = outputGraphDiv (target tg p)).
Proof.
  intros Hoff.
  split; [|split].
  - unfold setupMonacoEditor, setupMonacoEditor_outputFeedbackDiv, setupElement_feedback_area.
    cbn. rewrite Hoff. reflexivity.
  - unfold setupNewMonacoEditor, setupNewMonacoEditor_outputFeedbackDiv2.
    cbn. rewrite Hoff. reflexivity.
  - intros Hnull.
    destruct p as [props pr ap bt out figs mpl calls rq al].
    unfold resetButton_onclick, classList_contains.
    destruct tg; page_simpl.
    + destruct pr as [ev ic oc ofb og]; page_simpl; subst ofb.
      monad_simpl; page_simpl. repeat split.
    + destruct ap as [ev ic oc ofb og]; page_simpl; subst ofb.
      monad_simpl; page_simpl. repeat split.
Qed.

(** The shipped settings, after a run that left output and a figure: Reset
    restores the source, throws, and the output is still there. *)
Lemma reset_without_feedback_area_witness :
  feedback cfg_default = false /\
  outputFeedbackDiv (target Primary (page_after_run cfg_default)) = None /\
  fst (resetButton_onclick Primary (page_after_run cfg_default)) =
    Thrown (TypeError "classList") /\
  editor_value (target Primary (snd (resetButton_onclick Primary (page_after_run cfg_default)))) =
    source /\
  outputCodeDiv (target Primary (snd (resetButton_onclick Primary (page_after_run cfg_default)))) =
    {| innerHTML := [Pre false (Some source)]; has_content := true |}.
Proof.
  assert (Hoff : feedback cfg_default = false) by reflexivity.
  assert (Hnull : outputFeedbackDiv (target Primary (page_after_run cfg_default)) = None)
    by (vm_compute; reflexivity).
  split; [exact Hoff|]. split; [exact Hnull|].
  destruct (reset_without_feedback_area cfg_default source Primary
              (page_after_run cfg_default) Hoff) as (_ & _ & H).
  destruct (H Hnull) as (Hthrown & Heditor & Hout & _).
  split; [exact Hthrown|].
  rewrite Heditor, Hout. vm_compute. split; reflexivity.
Defined.

(** C6 does not hold of the code: with the shipped settings there is no
    feedback area; after a run that left output and a figure, both areas
    are marked, and Reset throws before it clears either of them. *)
Theorem reset_leaves_marked_areas_uncleared :
  has_content (outputCodeDiv (primary (page_after_run cfg_default))) = true /\
  has_content (outputGraphDiv (primary (page_after_run cfg_default))) = true /\
  fst (resetButton_onclick Primary (page_after_run cfg_default)) =
    Thrown (TypeError "classList") /\
  innerHTML (outputCodeDiv
               (primary (snd (resetButton_onclick Primary (page_after_run cfg_default))))) =
    [Pre false (Some source)] /\
  innerHTML (outputGraphDiv
               (primary (snd (resetButton_onclick Primary (page_after_run cfg_default))))) =
    [Figure [1] None].
Proof. vm_compute. repeat split. Qed.

(** ** The feedback handler *)

Module FeedbackFacts.
Import EngineFacts.

Ltac json_simpl :=
  cbv beta iota zeta delta
    [data choices message content truthy_string negb
     groq_request flask_request marking] in *;
  page_simpl.

Ltac feedback_unfold :=
  unfold submit, submit_statements, submit_callbacks, groq_branch, flask_branch,
    callbacks, groq_models_then, groq_chat_then,
    flask_then, render_feedback, choices_0_message_content, on_outputFeedbackDiv,
    call_fetch, alert, feedback_mark, feedback_content in *.

Section Handler.

Variable py : Interpreter.
Variable net : Network.
Variable cfg : Config.
Variable formatOutput : list OutputRecord -> jsstring.

Lemma rerun_frame (data : jsstring) (p : Page) :
  truthy_flag (this_props p !! "executeLock") = false ->
  exists msg p1,
    rerun py formatOutput data p = (Done (Some msg), p1) /\
    primary p1 = primary p /\ appended p1 = appended p /\
    requests p1 = requests p /\ alerts p1 = alerts p.
Proof.
  intros Hguard. unfold rerun, executeLock, disableInteractiveCells.
  unfold try_catch. unfold bind at 1. cbn [read]. rewrite Hguard.
  unfold bind at 1. unfold bind at 1. cbn [modify].
  unfold bind at 1. cbn [modify].
  unfold bind at 1.
  destruct (mainPyodide py) as [[]|reason]; cbn [await ret throw].
  - unfold bind at 1. unfold qpyodideResetOutputArray at 1. cbn [modify].
    unfold bind at 1. rewrite run_and_capture_spec.
    unfold qpyodideRetrieveOutput, enableInteractiveCells. monad_simpl.
    destruct p as [props pr ap bt out figs mpl calls rq al].
    unfold draw. page_simpl. do 2 eexists. split; [reflexivity|].
    destruct mpl; page_simpl; repeat split.
  - do 2 eexists. split; [reflexivity|].
    destruct p as [props pr ap bt out figs mpl calls rq al]. page_simpl. repeat split.
Qed.

(** With the remote-model backend and no credential, the handler prompts
    and returns: nothing else changes. *)
Lemma submit_without_credential (tg : Target) (messages : list (string * jsstring)) (p : Page) :
  backend cfg = lit "groq" ->
  apiKeyInput cfg = [] ->
  submit net cfg tg messages p =
  (Done tt, with_alerts (alerts p ++ [AlertText "Please enter your API Key."]) p).
Proof.
  intros Hgroq Hkey. feedback_unfold.
  rewrite bool_decide_eq_true_2 by exact Hgroq. rewrite Hkey.
  monad_simpl. reflexivity.
Qed.


Ltac case_step :=
  match goal with
  | |- context [bool_decide ?P] => destruct (bool_decide P) eqn:?
  | |- context [fetch ?n ?r] => destruct (fetch n r) as [[[? ?]|]|?] eqn:?
  | |- context [match ?x with _ => _ end] => is_var x; destruct x
  | |- context [message ?c] => is_var c; destruct c
  | |- context [content ?m] => is_var m; destruct m
  end.

Ltac crunch := repeat (monad_simpl; json_simpl; try case_step).

(** Unless the handler returns for want of a credential, it ends with the
    feedback area marked, whatever the backend answered. *)
Lemma submit_marks (tg : Target) (messages : list (string * jsstring)) (p : Page) (fb : Region) :
  outputFeedbackDiv (target tg p) = Some fb ->
  ~ (backend cfg = lit "groq" /\ apiKeyInput cfg = []) ->
  feedback_mark tg (snd (submit net cfg tg messages p)) = Some true.
Proof.
  intros Hfb Hcred.
  destruct p as [props pr ap bt out figs mpl calls rq al].
  destruct tg; [destruct pr as [ev ic oc ofb og] | destruct ap as [ev ic oc ofb og]];
    page_simpl; subst ofb; feedback_unfold;
    destruct (apiKeyInput cfg) as [|k key] eqn:Hkey;
    destruct (bool_decide (backend cfg = lit "groq")) eqn:Hgroq;
    try (apply bool_decide_eq_true_1 in Hgroq; exfalso; apply Hcred;
         split; [exact Hgroq | reflexivity]);
    crunch; reflexivity.
Qed.


(** The handler is [submit] on a page that differs from the one it started
    on only in what the run wrote. *)
Lemma feedbackButton_onclick_frame (tg : Target) (p : Page) :
  truthy_flag (this_props p !! "executeLock") = false ->
  exists msg p1,
    feedbackButton_onclick py net cfg formatOutput tg p =
      submit net cfg tg (exchange msg (editor_value (target tg p))) p1 /\
    target tg p1 = target tg p /\
    requests p1 = requests p /\ alerts p1 = alerts p.
Proof.
  intros Hguard.
  destruct (rerun_frame (editor_value (target tg p)) p Hguard)
    as (msg & p1 & Hrun & Hpr & Hap & Hrq & Hal).
  exists msg, p1. unfold feedbackButton_onclick.
  unfold bind at 1. cbn [read]. unfold bind at 1. rewrite Hrun.
  split; [reflexivity|]. split; [|split; assumption].
  destruct tg; unfold target; assumption.
Qed.

(** [submit] is the statements of the handler followed by the callbacks
    of the requests they left pending. *)
Lemma submit_split (tg : Target) (messages : list (string * jsstring)) (p : Page) :
  submit net cfg tg messages p =
  match submit_statements net cfg tg messages p with
  | (Done (Some pending), p1) => submit_callbacks net cfg tg messages pending p1
  | (Done None, p1) => (Done tt, p1)
  | (Thrown e, p1) => (Thrown e, p1)
  end.
Proof.
  unfold submit, bind.
  destruct (submit_statements net cfg tg messages p) as [[[pending|]|e] p1]; reflexivity.
Qed.

(** With the remote-model backend and no credential, the statements of
    the handler end at the prompt. *)
Lemma submit_statements_without_credential (tg : Target)
    (messages : list (string * jsstring)) (p : Page) :
  backend cfg = lit "groq" ->
  apiKeyInput cfg = [] ->
  submit_statements net cfg tg messages p =
  (Done None, with_alerts (alerts p ++ [AlertText "Please enter your API Key."]) p).
Proof.
  intros Hgroq Hkey. feedback_unfold.
  rewrite bool_decide_eq_true_2 by exact Hgroq. rewrite Hkey.
  monad_simpl. reflexivity.
Qed.

(** Otherwise they end with the mark on the feedback area: its content
    is as before and no alert has been raised, since no callback has run. *)
Lemma submit_statements_mark (tg : Target) (messages : list (string * jsstring))
    (p : Page) (fb : Region) :
  outputFeedbackDiv (target tg p) = Some fb ->
  ~ (backend cfg = lit "groq" /\ apiKeyInput cfg = []) ->
  exists pending p1,
    submit_statements net cfg tg messages p = (Done (Some pending), p1) /\
    marking pending = None /\
    outputFeedbackDiv (target tg p1) = Some (classList_add fb) /\
    requests p1 = requests p ++ handler_requests cfg messages /\
    alerts p1 = alerts p.
Proof.
  intros Hfb Hcred.
  destruct p as [props pr ap bt out figs mpl calls rq al].
  unfold handler_requests.
  destruct tg; [destruct pr as [ev ic oc ofb og] | destruct ap as [ev ic oc ofb og]];
    page_simpl; subst ofb; feedback_unfold;
    destruct (apiKeyInput cfg) as [|k key] eqn:Hkey;
    destruct (bool_decide (backend cfg = lit "groq")) eqn:Hgroq;
    try (apply bool_decide_eq_true_1 in Hgroq; exfalso; apply Hcred;
         split; [exact Hgroq | reflexivity]);
    destruct (bool_decide (backend cfg = lit "flask"));
    monad_simpl; json_simpl; do 2 eexists;
    rewrite <- ?app_assoc, ?app_nil_r; repeat split.
Qed.

(** The handler with its callbacks is its statements followed by the
    callbacks of the requests they left pending. *)
Lemma feedbackButton_onclick_split (tg : Target) (p : Page) :
  feedbackButton_onclick py net cfg formatOutput tg p =
  match feedbackButton_onclick_statements py net cfg formatOutput tg p with
  | (Done (Some (messages, pending)), p1) =>
      submit_callbacks net cfg tg messages pending p1
  | (Done None, p1) => (Done tt, p1)
  | (Thrown e, p1) => (Thrown e, p1)
  end.
Proof.
  unfold feedbackButton_onclick, feedbackButton_onclick_statements, bind, read.
  destruct (rerun py formatOutput (editor_value (target tg p)) p) as [[[msg|]|e] p1];
    try reflexivity.
  rewrite submit_split.
  destruct (submit_statements net cfg tg _ p1) as [[[pending|]|e] p2]; reflexivity.
Qed.

(** The statements of the handler are those of [submit_statements] on a
    page that differs from the one it started on only in what the run
    wrote. *)
Lemma feedbackButton_onclick_statements_frame (tg : Target) (p : Page) :
  truthy_flag (this_props p !! "executeLock") = false ->
  exists msg p1,
    feedbackButton_onclick_statements py net cfg formatOutput tg p =
      match submit_statements net cfg tg (exchange msg (editor_value (target tg p))) p1 with
      | (Done (Some pending), p2) =>
          (Done (Some (exchange msg (editor_value (target tg p)), pending)), p2)
      | (Done None, p2) => (Done None, p2)
      | (Thrown e, p2) => (Thrown e, p2)
      end /\
    target tg p1 = target tg p /\
    requests p1 = requests p /\ alerts p1 = alerts p.
Proof.
  intros Hguard.
  destruct (rerun_frame (editor_value (target tg p)) p Hguard)
    as (msg & p1 & Hrun & Hpr & Hap & Hrq & Hal).
  exists msg, p1. unfold feedbackButton_onclick_statements.
  unfold bind at 1. cbn [read]. unfold bind at 1. rewrite Hrun.
  split; [|split; [destruct tg; unfold target; assumption | split; assumption]].
  unfold bind.
  destruct (submit_statements net cfg tg _ p1) as [[[pending|]|e] p2]; reflexivity.
Qed.



(** The requests of the remote-model backend when the model list
    arrives. *)
Lemma submit_groq_requests (tg : Target) (messages : list (string * jsstring))
    (p : Page) (j : Json) (ids : list jsstring) :
  backend cfg = lit "groq" ->
  apiKeyInput cfg <> [] ->
  fetch net (GET (baseUrlInput cfg ++ lit "/models") (apiKeyInput cfg)) = Fulfilled (Some j) ->
  data j = Some ids ->
  requests (snd (submit net cfg tg messages p)) =
    requests p ++
    [GET (baseUrlInput cfg ++ lit "/models") (apiKeyInput cfg);
     POST (baseUrlInput cfg ++ lit "/chat/completions") (Some (apiKeyInput cfg))
          messages (Some (select_model ids))].
Proof.
  intros Hgroq Hkey Hmodels Hdata.
  assert (Hflask : bool_decide (backend cfg = lit "flask") = false).
  { apply bool_decide_eq_false_2. rewrite Hgroq. discriminate. }
  destruct p as [props pr ap bt out figs mpl calls rq al].
  destruct j as [jd jc]. cbn [data] in Hdata. subst jd.
  destruct tg; [destruct pr as [ev ic oc [ofb|] og] | destruct ap as [ev ic oc [ofb|] og]];
    feedback_unfold;
    rewrite (bool_decide_eq_true_2 _ Hgroq), Hflask;
    (destruct (apiKeyInput cfg) as [|k key] eqn:Hk; [congruence|]);
    monad_simpl; page_simpl; cbn [truthy_string negb];
    rewrite Hmodels;
    crunch; rewrite <- app_assoc; reflexivity.
Qed.

End Handler.
End FeedbackFacts.

Section FeedbackClaims.

Variable py : Interpreter.
Variable net : Network.
Variable cfg : Config.
Variable formatOutput : list OutputRecord -> jsstring.

Import FeedbackFacts.


(** C5, as the code has it: the handler marks the feedback area as its
    last statement, before any reply has arrived. Unless it returned for
    want of a credential, the area is marked when the handler returns: at
    that point the request of the backend has been made, the content of
    the area is still what it was and no alert has been raised; the
    callbacks of the requests run from there, and the area ends marked
    whatever became of the request. When the handler returned for want of
    a credential, the area is as it was. *)
Theorem feedback_mark_after_request (tg : Target) (p : Page) (fb : Region) :
  truthy_flag (this_props p !! "executeLock") = false ->
  outputFeedbackDiv (target tg p) = Some fb ->
  let returned := feedbackButton_onclick_statements py net cfg formatOutput tg p in
  let after := snd (feedbackButton_onclick py net cfg formatOutput tg p) in
  (backend cfg = lit "groq" /\ apiKeyInput cfg = [] ->
   fst returned = Done None /\
   outputFeedbackDiv (target tg (snd returned)) = Some fb /\
   outputFeedbackDiv (target tg after) = Some fb) /\
  (~ (backend cfg = lit "groq" /\ apiKeyInput cfg = []) ->
   (exists messages pending,
      fst returned = Done (Some (messages, pending)) /\
      requests (snd returned) = requests p ++ handler_requests cfg messages /\
      feedbackButton_onclick py net cfg formatOutput tg p =
        submit_callbacks net cfg tg messages pending (snd returned)) /\
   outputFeedbackDiv (target tg (snd returned)) = Some (classList_add fb) /\
   alerts (snd returned) = alerts p /\
   feedback_mark tg after = Some true).
Proof.
  intros Hguard Hfb returned after. subst returned after.
  rewrite (feedbackButton_onclick_split py net cfg formatOutput tg p).
  destruct (feedbackButton_onclick_statements_frame py net cfg formatOutput tg p Hguard)
    as (msg & p1 & Hstmts & Htg & Hrq & Hal).
  rewrite Hstmts. rewrite <- Htg in Hfb. rewrite <- Hal, <- Hrq.
  split.
  - intros [Hgroq Hkey].
    rewrite (submit_statements_without_credential net cfg tg _ p1 Hgroq Hkey).
    cbn [fst snd].
    destruct p1 as [props pr ap bt out figs mpl calls rq al].
    destruct tg; page_simpl; repeat split; exact Hfb.
  - intros Hcred.
    pose proof (submit_marks net cfg tg (exchange msg (editor_value (target tg p))) p1 fb
                  Hfb Hcred) as Hend.
    rewrite submit_split in Hend.
    destruct (submit_statements_mark net cfg tg (exchange msg (editor_value (target tg p)))
                p1 fb Hfb Hcred) as (pending & p2 & Hp & _ & Hmark & Hrequests & Halerts).
    rewrite Hp in Hend |- *. cbn [fst snd].
    split; [do 2 eexists; split; [reflexivity | split; [exact Hrequests | reflexivity]]|].
    split; [exact Hmark|]. split; [exact Halerts | exact Hend].
Qed.

(** C9: with the remote-model backend, an empty credential makes the
    handler prompt and return without a request; with a credential, once
    the model list has arrived the chat request names the preferred model
    when the list has it and the first listed model when it has not. *)
Theorem groq_credential_and_model (tg : Target) (p : Page) :
  truthy_flag (this_props p !! "executeLock") = false ->
  backend cfg = lit "groq" ->
  let after := snd (feedbackButton_onclick py net cfg formatOutput tg p) in
  (apiKeyInput cfg = [] ->
   alerts after = alerts p ++ [AlertText "Please enter your API Key."] /\
   requests after = requests p) /\
  (apiKeyInput cfg <> [] ->
   forall j ids,
     fetch net (GET (baseUrlInput cfg ++ lit "/models") (apiKeyInput cfg)) = Fulfilled (Some j) ->
     data j = Some ids ->
     exists messages chosen,
       requests after =
         requests p ++
         [GET (baseUrlInput cfg ++ lit "/models") (apiKeyInput cfg);
          POST (baseUrlInput cfg ++ lit "/chat/completions") (Some (apiKeyInput cfg))
               messages (Some chosen)] /\
       (preferred_model ∈ ids -> chosen = Some preferred_model) /\
       (preferred_model ∉ ids -> chosen = head ids)).
Proof.
  intros Hguard Hgroq after. subst after.
  destruct (feedbackButton_onclick_frame py net cfg formatOutput tg p Hguard)
    as (msg & p1 & Hrun & _ & Hrq & Hal).
  rewrite Hrun. split.
  - intros Hkey.
    rewrite (submit_without_credential net cfg tg _ p1 Hgroq Hkey).
    destruct p1 as [props pr ap bt out figs mpl calls rq al].
    page_simpl. subst. split; reflexivity.
  - intros Hkey j ids Hmodels Hdata.
    exists (exchange msg (editor_value (target tg p))), (select_model ids).
    rewrite (submit_groq_requests net cfg tg _ p1 j ids Hgroq Hkey Hmodels Hdata).
    rewrite Hrq. split; [reflexivity|].
    unfold select_model. split; intros Hin.
    + rewrite bool_decide_eq_true_2 by exact Hin. reflexivity.
    + rewrite bool_decide_eq_false_2 by exact Hin. reflexivity.
Qed.

End FeedbackClaims.



(** The local-server backend on a page whose feedback area is empty and
    unmarked: when the handler returns, the area is marked and still
    empty, and nothing has been reported; it is marked at the end. *)
Lemma feedback_mark_after_request_witness :
  outputFeedbackDiv
    (target Primary
       (snd (feedbackButton_onclick_statements py_echo (net_replies [] (lit "ok")) cfg_flask
               fmt_concat Primary (page_of cfg_flask)))) =
    Some {| innerHTML := []; has_content := true |} /\
  alerts (snd (feedbackButton_onclick_statements py_echo (net_replies [] (lit "ok")) cfg_flask
                 fmt_concat Primary (page_of cfg_flask))) = [] /\
  feedback_mark Primary
    (snd (feedbackButton_onclick py_echo (net_replies [] (lit "ok")) cfg_flask fmt_concat
            Primary (page_of cfg_flask))) = Some true.
Proof.
  assert (Hguard : truthy_flag (this_props (page_of cfg_flask) !! "executeLock") = false)
    by (vm_compute; reflexivity).
  assert (Hfb : outputFeedbackDiv (target Primary (page_of cfg_flask))
                = Some (mkRegion [] false)) by (vm_compute; reflexivity).
  assert (Hcred : ~ (backend cfg_flask = lit "groq" /\ apiKeyInput cfg_flask = [])).
  { intros [Hgroq _]. vm_compute in Hgroq. discriminate Hgroq. }
  destruct (feedback_mark_after_request py_echo (net_replies [] (lit "ok")) cfg_flask fmt_concat
              Primary (page_of cfg_flask) (mkRegion [] false) Hguard Hfb) as [_ Hmarked].
  destruct (Hmarked Hcred) as (_ & Hreturned & Halerts & Hafter).
  split; [exact Hreturned|]. split; [exact Halerts | exact Hafter].
Defined.

(** C5 fails as stated: with the local-server backend and the network
    down, the feedback area was not marked before the request, nothing is
    rendered into it, an alert reports the failure, and the area ends
    marked. *)
Lemma network_failure_marks_feedback_area :
  feedback_mark Primary (page_of cfg_flask) = Some false /\
  alerts (snd (feedbackButton_onclick py_echo net_down cfg_flask fmt_concat
                 Primary (page_of cfg_flask))) =
    [AlertError "Error when requesting the API:  "
       (Raised (lit "TypeError: Failed to fetch"))] /\
  feedback_content Primary
    (snd (feedbackButton_onclick py_echo net_down cfg_flask fmt_concat
            Primary (page_of cfg_flask))) = Some [] /\
  feedback_mark Primary
    (snd (feedbackButton_onclick py_echo net_down cfg_flask fmt_concat
            Primary (page_of cfg_flask))) = Some true.
Proof. vm_compute. repeat split. Qed.

(** A credential and a model list without the preferred model: the chat
    request names the first listed model. *)
Lemma groq_credential_and_model_witness :
  (preferred_model ∉ listed_models) /\
  exists messages,
    requests (snd (feedbackButton_onclick py_echo (net_replies listed_models (lit "ok"))
                     (cfg_groq api_key) fmt_concat Primary (page_of (cfg_groq api_key)))) =
    [GET (lit "https://api.groq.com/openai/v1/models") api_key;
     POST (lit "https://api.groq.com/openai/v1/chat/completions") (Some api_key)
          messages (Some (Some (lit "llama3-8b-8192")))].
Proof.
  assert (Hnot : preferred_model ∉ listed_models).
  { intros Hin. apply list_elem_of_In in Hin. vm_compute in Hin.
    destruct Hin as [H|[H|[]]]; discriminate H. }
  split; [exact Hnot|].
  assert (Hguard : truthy_flag (this_props (page_of (cfg_groq api_key)) !! "executeLock")
                   = false) by (vm_compute; reflexivity).
  destruct (groq_credential_and_model py_echo (net_replies listed_models (lit "ok"))
              (cfg_groq api_key) fmt_concat Primary (page_of (cfg_groq api_key))
              Hguard eq_refl) as [_ Hkeyed].
  assert (Hkey : apiKeyInput (cfg_groq api_key) <> []) by discriminate.
  destruct (Hkeyed Hkey (mkJson (Some listed_models) None) listed_models eq_refl eq_refl)
    as (messages & chosen & Hrq & _ & Hfirst).
  exists messages. rewrite Hrq, (Hfirst Hnot). reflexivity.
Defined.

(** The run button on a page whose interpreter runs the source silently:
    the click handler marks the output area right after it has called
    [runCode], and the resumed run removes the mark again. *)
Example click_then_silent_run :
  outputCodeDiv
    (primary (page (run_events py_silent cfg_default fmt_concat
                      (mkSession (page_of cfg_default) []) [Trigger Primary]))) =
    {| innerHTML := [Pre true None]; has_content := true |} /\
  outputCodeDiv
    (primary (page (run_events py_silent cfg_default fmt_concat
                      (mkSession (page_of cfg_default) []) [Trigger Primary; Resume]))) =
    {| innerHTML := [Pre true None]; has_content := false |}.
Proof. vm_compute. split; reflexivity. Qed.

(** * Overlapping runs *)

Module InterleavingFacts.

Ltac run_unfold :=
  unfold advance, runCode_render, runCode_enter, executeLock, disableInteractiveCells,
    enableInteractiveCells, qpyodideResetOutputArray, qpyodideAddToOutputArray,
    qpyodideRetrieveOutput, createElement_figure, figure_children,
    on_outputCodeDiv, on_outputGraphDiv, draw in *.

Ltac run_cases :=
  repeat match goal with
         | |- context [test_S ?b] => destruct (test_S b); page_simpl
         | |- context [bool_decide ?P] => destruct (bool_decide P); page_simpl
         | |- context [match ?m with Some _ => _ | None => _ end] =>
             is_var m; destruct m; page_simpl
         end.

Section Runs.

Variable py : Interpreter.
Variable cfg : Config.
Variable formatOutput : list OutputRecord -> jsstring.

(** A call that makes its moves one after the other, with no move of
    another call in between, is [runCode] from its first [await] to its
    end: what [Resume] lets the oldest call in flight do. *)
Lemma run_to_end_is_resume (tg : Target) (code : jsstring) (p : Page) :
  run_to_end py cfg formatOutput 4 tg code AtMainPyodide p =
  runCode_resume py cfg formatOutput tg code p.
Proof.
  unfold runCode_resume, run_and_capture, await_loadPackagesFromImports,
    await_runPythonAsync. cbn [run_to_end]. run_unfold.
  destruct p as [props pr ap bt out figs mpl calls rq al].
  do 2 monad_simpl.
  destruct (mainPyodide py) as [[]|e]; [|reflexivity].
  page_simpl.
  destruct (loadPackagesFromImports py calls code) as [[]|e]; page_simpl;
    [destruct (runPythonAsync py (calls ++ [LoadPackagesFromImports code]) code)
       as [em dr [v|e]]; cbn [emitted drawn_elements settles]; page_simpl|];
    destruct tg; page_simpl;
    repeat match goal with
           | |- context [test_S ?b] => destruct (test_S b); page_simpl
           | |- context [bool_decide ?P] => destruct (bool_decide P); page_simpl
           end;
    reflexivity.
Qed.

(** What no move of a call writes, and what it writes of another target. *)
Lemma advance_frame (tg : Target) (code : jsstring) (ph : Phase) (p : Page) :
  let p' := snd (advance py cfg formatOutput tg code ph p) in
  (forall t,
     editor_value (target t p') = editor_value (target t p) /\
     qpyodideinitialCode (target t p') = qpyodideinitialCode (target t p) /\
     outputFeedbackDiv (target t p') = outputFeedbackDiv (target t p)) /\
  requests p' = requests p /\
  alerts p' = alerts p /\
  (forall t, t <> tg -> outputCodeDiv (target t p') = outputCodeDiv (target t p)).
Proof.
  intros p'. subst p'.
  destruct p as [props pr ap bt out figs mpl calls rq al].
  destruct ph as [|g [[]|e]|g eff|g [v|e]]; run_unfold; do 2 monad_simpl;
    try (destruct (mainPyodide py) as [[]|e]);
    destruct tg; page_simpl; run_cases;
    (split; [intros []; repeat split|]);
    (split; [reflexivity|]); (split; [reflexivity|]);
    intros [] Hother; try congruence; reflexivity.
Qed.

(** The same for a trigger, up to the first [await] of the call. *)
Lemma start_frame (tg : Target) (p : Page) :
  let p' := snd (on_outputCodeDiv tg classList_add (snd (runCode_enter p))) in
  (forall t,
     editor_value (target t p') = editor_value (target t p) /\
     qpyodideinitialCode (target t p') = qpyodideinitialCode (target t p) /\
     outputFeedbackDiv (target t p') = outputFeedbackDiv (target t p)) /\
  requests p' = requests p /\
  alerts p' = alerts p /\
  (forall t, t <> tg -> outputCodeDiv (target t p') = outputCodeDiv (target t p)).
Proof.
  intros p'. subst p'.
  destruct p as [props pr ap bt out figs mpl calls rq al].
  run_unfold; do 2 monad_simpl; page_simpl.
  destruct (truthy_flag (props !! "executeLock"));
    destruct tg; page_simpl;
    (split; [intros []; repeat split|]);
    (split; [reflexivity|]); (split; [reflexivity|]);
    intros [] Hother; try congruence; reflexivity.
Qed.

(** The page a move leaves. *)
Lemma pool_step_page (pl : Pool) (mv : Move) :
  pool_page (pool_step py cfg formatOutput pl mv) =
  match mv with
  | Start tg => snd (on_outputCodeDiv tg classList_add (snd (runCode_enter (pool_page pl))))
  | Advance i =>
      match suspended pl !! i with
      | Some r => snd (advance py cfg formatOutput (s_target r) (s_code r) (s_phase r)
                         (pool_page pl))
      | None => pool_page pl
      end
  end.
Proof.
  destruct mv as [tg|i]; cbn [pool_step].
  - destruct (runCode_enter (pool_page pl)) as [[[]|e] p1]; reflexivity.
  - destruct (suspended pl !! i) as [r|]; [|reflexivity].
    destruct (advance py cfg formatOutput (s_target r) (s_code r) (s_phase r) (pool_page pl))
      as [[[ph|]|e] p1]; reflexivity.
Qed.

Lemma pool_step_frame (pl : Pool) (mv : Move) :
  beyond_runs (pool_page (pool_step py cfg formatOutput pl mv)) = beyond_runs (pool_page pl).
Proof.
  rewrite pool_step_page. unfold beyond_runs.
  destruct mv as [tg|i].
  - destruct (start_frame tg (pool_page pl)) as (Ht & Hrq & Hal & _).
    destruct (Ht Primary) as (E1 & E2 & E3). destruct (Ht Appended) as (E4 & E5 & E6).
    cbn [target] in *. congruence.
  - destruct (suspended pl !! i) as [r|]; [|reflexivity].
    destruct (advance_frame (s_target r) (s_code r) (s_phase r) (pool_page pl))
      as (Ht & Hrq & Hal & _).
    destruct (Ht Primary) as (E1 & E2 & E3). destruct (Ht Appended) as (E4 & E5 & E6).
    cbn [target] in *. congruence.
Qed.

Lemma run_moves_frame (mvs : list Move) (pl : Pool) :
  beyond_runs (pool_page (run_moves py cfg formatOutput pl mvs)) = beyond_runs (pool_page pl).
Proof.
  revert pl. induction mvs as [|mv mvs IH]; intros pl; [reflexivity|].
  cbn [run_moves fold_left]. etransitivity; [apply IH | apply pool_step_frame].
Qed.

(** No move defines the property the guard reads. *)
Lemma pool_step_leaves_executeLock_undefined (pl : Pool) (mv : Move) :
  this_props (pool_page pl) !! "executeLock" = None ->
  this_props (pool_page (pool_step py cfg formatOutput pl mv)) !! "executeLock" = None.
Proof.
  intros Hundef. rewrite pool_step_page.
  destruct pl as [p fl]. cbn [pool_page suspended] in *.
  destruct p as [props pr ap bt out figs mpl calls rq al]. page_simpl.
  destruct mv as [tg|i].
  - run_unfold; do 2 monad_simpl; page_simpl. rewrite Hundef. cbn [truthy_flag].
    destruct tg; page_simpl; rewrite lookup_insert_ne by discriminate; exact Hundef.
  - destruct (fl !! i) as [[tg code ph]|]; [|exact Hundef].
    cbn [s_target s_code s_phase].
    destruct ph as [|g [[]|e]|g eff|g [v|e]]; run_unfold; do 2 monad_simpl;
      try (destruct (mainPyodide py) as [[]|e]);
      destruct tg; page_simpl; run_cases;
      rewrite ?lookup_insert_ne by discriminate; exact Hundef.
Qed.

Lemma run_moves_leave_executeLock_undefined (mvs : list Move) (pl : Pool) :
  this_props (pool_page pl) !! "executeLock" = None ->
  this_props (pool_page (run_moves py cfg formatOutput pl mvs)) !! "executeLock" = None.
Proof.
  revert pl. induction mvs as [|mv mvs IH]; intros pl Hundef; [exact Hundef|].
  cbn [run_moves fold_left]. apply IH, pool_step_leaves_executeLock_undefined, Hundef.
Qed.

(** However the calls in flight overlap, a trigger is never stopped at
    the guard: it adds a call to those in flight. *)
Lemma start_always_enters (code : jsstring) (buttons : list bool)
    (mvs : list Move) (tg : Target) :
  let pl := run_moves py cfg formatOutput
              (mkPool (new_InteractiveCell cfg code buttons) []) mvs in
  suspended (pool_step py cfg formatOutput pl (Start tg)) =
  suspended pl ++ [mkSuspended tg (editor_value (target tg (pool_page pl))) AtMainPyodide].
Proof.
  intros pl.
  assert (Hundef : this_props (pool_page pl) !! "executeLock" = None).
  { apply run_moves_leave_executeLock_undefined. reflexivity. }
  cbn [pool_step].
  rewrite EngineFacts.runCode_enter_unlocked by (rewrite Hundef; reflexivity).
  reflexivity.
Qed.

End Runs.
End InterleavingFacts.

Section Overlap.

Variable py : Interpreter.
Variable cfg : Config.
Variable formatOutput : list OutputRecord -> jsstring.

Import InterleavingFacts.

(** X1: however the calls of [runCode] / [runCodeNE] on the two targets
    overlap, none of them writes the text of an editor, its initial
    snapshot or a feedback area, and none makes a request or raises an
    alert: after any sequence of triggers and moves these are as before.
    The output area of a target is written only by the triggers and the
    calls of that target. The graph areas are left out: the figure one of
    them shows may be the element another call draws into. *)
Theorem overlapping_runs_frame (pl : Pool) :
  (forall mvs,
     let after := pool_page (run_moves py cfg formatOutput pl mvs) in
     (forall t,
        editor_value (target t after) = editor_value (target t (pool_page pl)) /\
        qpyodideinitialCode (target t after) = qpyodideinitialCode (target t (pool_page pl)) /\
        outputFeedbackDiv (target t after) = outputFeedbackDiv (target t (pool_page pl))) /\
     requests after = requests (pool_page pl) /\
     alerts after = alerts (pool_page pl)) /\
  (forall mv t,
     move_target pl mv <> Some t ->
     outputCodeDiv (target t (pool_page (pool_step py cfg formatOutput pl mv))) =
     outputCodeDiv (target t (pool_page pl))).
Proof.
  split.
  - intros mvs after. subst after.
    pose proof (run_moves_frame py cfg formatOutput mvs pl) as H.
    unfold beyond_runs in H. injection H as H1 H2 H3 H4 H5 H6 H7 H8.
    split; [intros []; unfold target; repeat split; assumption|].
    split; assumption.
  - intros mv t Hother. rewrite pool_step_page.
    destruct mv as [tg|i]; cbn [move_target] in Hother.
    + destruct (start_frame tg (pool_page pl)) as (_ & _ & _ & Hout).
      apply Hout. congruence.
    + destruct (suspended pl !! i) as [r|]; [|reflexivity]. cbn in Hother.
      destruct (advance_frame py cfg formatOutput (s_target r) (s_code r) (s_phase r)
                  (pool_page pl)) as (_ & _ & _ & Hout).
      apply Hout. congruence.
Qed.

(** X2: of the moves of a call in flight, only the one that ends it
    writes the lock and the run buttons: it sets [executionLock] to false
    and enables every run button, whether or not other calls are still in
    flight; the moves before it leave both as they are. *)
Theorem run_end_releases_lock (pl : Pool) (i : nat) (r : Suspended) :
  suspended pl !! i = Some r ->
  let pl' := pool_step py cfg formatOutput pl (Advance i) in
  (ends_run (s_phase r) = true ->
   suspended pl' = delete i (suspended pl) /\
   this_props (pool_page pl') !! "executionLock" = Some false /\
   run_buttons (pool_page pl') = map (fun _ => false) (run_buttons (pool_page pl))) /\
  (ends_run (s_phase r) = false ->
   this_props (pool_page pl') = this_props (pool_page pl) /\
   run_buttons (pool_page pl') = run_buttons (pool_page pl)).
Proof.
  intros Hr pl'. subst pl'. destruct pl as [p fl]. cbn [suspended pool_page] in *.
  cbn [pool_step suspended pool_page]. rewrite Hr.
  destruct r as [tg code ph]. cbn [s_target s_code s_phase].
  destruct p as [props pr ap bt out figs mpl calls rq al].
  split; intros Hends.
  - destruct ph as [|g [[]|e]|g eff|g [v|e]]; try discriminate Hends;
      run_unfold; do 2 monad_simpl; destruct tg; page_simpl; run_cases;
      cbn [suspended pool_page]; page_simpl;
      (split; [reflexivity|]); (split; [apply lookup_insert_eq | reflexivity]).
  - destruct ph as [|g [[]|e]|g eff|g [v|e]]; try discriminate Hends;
      run_unfold; do 2 monad_simpl;
      try (destruct (mainPyodide py) as [[]|e]);
      page_simpl; run_cases; cbn [suspended pool_page]; page_simpl;
      split; reflexivity.
Qed.

(** X28: a call that is resumed after [runPythonAsync] adds its last
    record to the capture buffer as it is then and renders the whole of
    it, whichever call the records came from; the graph area gets the
    figure the call created itself, with what has been drawn into that
    one, which is nothing when another call had installed its figure by
    the time the source was executed. *)
Theorem run_end_renders_shared_buffer (pl : Pool) (i : nat) (r : Suspended)
    (graphFigure : nat) (output : Settled jsstring) :
  suspended pl !! i = Some r ->
  s_phase r = AtSettled graphFigure output ->
  let p := pool_page pl in
  let p' := pool_page (pool_step py cfg formatOutput pl (Advance i)) in
  let last_record :=
    match output with
    | Fulfilled v => mkRecord (Value v) "stdout"
    | Rejected err => mkRecord (Caught err) "stderr"
    end in
  qpyodideOutput p' = qpyodideOutput p ++ [last_record] /\
  outputCodeDiv (target (s_target r) p') =
    rendered_output (formatOutput (qpyodideOutput p ++ [last_record])) /\
  outputGraphDiv (target (s_target r) p') =
    rendered_graph cfg (default [] (figures p !! graphFigure)).
Proof.
  intros Hr Hph p p' last_record. subst p p' last_record.
  destruct pl as [p fl]. cbn [suspended pool_page] in *.
  cbn [pool_step suspended pool_page]. rewrite Hr.
  destruct r as [tg code ph]. cbn [s_target s_code s_phase] in *. subst ph.
  destruct p as [props pr ap bt out figs mpl calls rq al].
  unfold rendered_output, rendered_graph.
  destruct output as [v|e]; run_unfold; do 2 monad_simpl; destruct tg; page_simpl;
    destruct (test_S _); page_simpl;
    destruct (figs !! graphFigure) as [[|k kids]|]; cbn [default length];
    cbn [bool_decide decide_rel];
    repeat match goal with
           | |- context [bool_decide ?P] =>
               first [rewrite (bool_decide_eq_true_2 P) by (cbn; lia)
                     |rewrite (bool_decide_eq_false_2 P) by (cbn; lia)]
           end;
    page_simpl; cbn [pool_page]; page_simpl; repeat split.
Qed.

End Overlap.

(** Two calls in flight: the first ends and unlocks the cell while the
    second still waits at its first [await]. *)
Lemma run_end_releases_lock_witness :
  suspended (pool_step py_echo cfg_default fmt_concat first_run_about_to_end (Advance 0)) =
    [mkSuspended Appended [] AtMainPyodide] /\
  this_props (pool_page (pool_step py_echo cfg_default fmt_concat first_run_about_to_end
                           (Advance 0))) !! "executionLock" = Some false /\
  run_buttons (pool_page (pool_step py_echo cfg_default fmt_concat first_run_about_to_end
                            (Advance 0))) = [false; false].
Proof.
  assert (Hr : suspended first_run_about_to_end !! 0%nat =
               Some (mkSuspended Primary source (AtSettled 0 (Fulfilled []))))
    by (vm_compute; reflexivity).
  destruct (run_end_releases_lock py_echo cfg_default fmt_concat first_run_about_to_end
              0%nat _ Hr) as [Hend _].
  destruct (Hend eq_refl) as (Hfl & Hlock & Hbuttons).
  split; [rewrite Hfl; vm_compute; reflexivity|].
  split; [exact Hlock|]. rewrite Hbuttons. vm_compute. reflexivity.
Defined.

(** The source of the first call has drawn into the figure of the
    second: the first call ends with an empty graph area. *)
Lemma run_end_renders_shared_buffer_witness :
  figures (pool_page second_figure_installed_meanwhile) = [[]; [1]] /\
  outputGraphDiv
    (primary (pool_page (pool_step py_echo cfg_default fmt_concat
                           second_figure_installed_meanwhile (Advance 0)))) =
    {| innerHTML := []; has_content := false |}.
Proof.
  assert (Hr : suspended second_figure_installed_meanwhile !! 0%nat =
               Some (mkSuspended Primary source (AtSettled 0 (Fulfilled []))))
    by (vm_compute; reflexivity).
  split; [vm_compute; reflexivity|].
  destruct (run_end_renders_shared_buffer py_echo cfg_default fmt_concat
              second_figure_installed_meanwhile 0%nat _ 0%nat (Fulfilled []) Hr eq_refl)
    as (_ & _ & Hgraph).
  cbn [s_target target] in Hgraph. rewrite Hgraph. vm_compute. reflexivity.
Defined.

(** * Further properties of Reset and Copy *)

(** X3: on a target that has a feedback area, Reset returns normally,
    restores the text of the editor to the initial snapshot, clears each of
    the output, feedback and graph areas exactly when the area is marked
    'has-content', and changes no mark. *)
Theorem reset_clears_marked_areas (tg : Target) (p : Page) (fb : Region) :
  outputFeedbackDiv (target tg p) = Some fb ->
  let after := target tg (snd (resetButton_onclick tg p)) in
  fst (resetButton_onclick tg p) = Done tt /\
  editor_value after = qpyodideinitialCode (target tg p) /\
  outputCodeDiv after =
    (if has_content (outputCodeDiv (target tg p))
     then {| innerHTML := []; has_content := true |}
     else outputCodeDiv (target tg p)) /\
  outputFeedbackDiv after =
    Some (if has_content fb then {| innerHTML := []; has_content := true |} else fb) /\
  outputGraphDiv after =
    (if has_content (outputGraphDiv (target tg p))
     then {| innerHTML := []; has_content := true |}
     else outputGraphDiv (target tg p)).
Proof.
  intros Hfb after. subst after.
  rewrite (reset_with_feedback_area tg p fb Hfb).
  destruct p as [props pr ap bt out figs mpl calls rq al].
  unfold cleared_if_marked.
  destruct tg; page_simpl;
    destruct fb as [fbc []];
    [destruct pr as [ev ic [occ []] ofb [ogc []]] | destruct pr as [ev ic [occ []] ofb [ogc []]]
    |destruct ap as [ev ic [occ []] ofb [ogc []]] | destruct ap as [ev ic [occ []] ofb [ogc []]]];
    page_simpl; repeat split.
Qed.

Lemma reset_clears_marked_areas_witness :
  outputFeedbackDiv (target Primary (page_with_reply cfg_flask)) = Some earlier_reply /\
  outputFeedbackDiv
    (target Primary (snd (resetButton_onclick Primary (page_with_reply cfg_flask)))) =
  Some {| innerHTML := []; has_content := true |}.
Proof.
  assert (Hfb : outputFeedbackDiv (target Primary (page_with_reply cfg_flask))
                = Some earlier_reply) by (vm_compute; reflexivity).
  split; [exact Hfb|].
  destruct (reset_clears_marked_areas Primary (page_with_reply cfg_flask) earlier_reply Hfb)
    as (_ & _ & _ & Hfeedback & _).
  exact Hfeedback.
Defined.

(** X4: on a target that has a feedback area, a second Reset changes
    nothing: Reset is idempotent. *)
Theorem reset_idempotent (tg : Target) (p : Page) (fb : Region) :
  outputFeedbackDiv (target tg p) = Some fb ->
  resetButton_onclick tg (snd (resetButton_onclick tg p)) =
  (Done tt, snd (resetButton_onclick tg p)).
Proof.
  intros Hfb.
  rewrite (reset_with_feedback_area tg p fb Hfb). cbn [snd].
  destruct p as [props pr ap bt out figs mpl calls rq al].
  destruct tg.
  - erewrite reset_with_feedback_area by (page_simpl; reflexivity).
    unfold cleared_if_marked.
    destruct pr as [ev ic [occ []] ofb [ogc []]], fb as [fbc []]; page_simpl; reflexivity.
  - erewrite reset_with_feedback_area by (page_simpl; reflexivity).
    unfold cleared_if_marked.
    destruct ap as [ev ic [occ []] ofb [ogc []]], fb as [fbc []]; page_simpl; reflexivity.
Qed.

Lemma reset_idempotent_witness :
  outputFeedbackDiv (target Primary (page_with_reply cfg_flask)) = Some earlier_reply /\
  fst (resetButton_onclick Primary
         (snd (resetButton_onclick Primary (page_with_reply cfg_flask)))) = Done tt.
Proof.
  assert (Hfb : outputFeedbackDiv (target Primary (page_with_reply cfg_flask))
                = Some earlier_reply) by (vm_compute; reflexivity).
  split; [exact Hfb|].
  rewrite (reset_idempotent Primary (page_with_reply cfg_flask) earlier_reply Hfb).
  reflexivity.
Defined.

(** X5: the feedback area of the primary target is in the document only
    when the feedback flag is on and the cell's 'read-only' option is the
    string "false". With the flag on and any other value of the option,
    Reset on the primary target of the constructed cell throws on the null
    area, while Reset on the appended target, whose feedback area depends
    on the flag alone, returns normally. *)
Theorem reset_on_read_only_cell (cfg : Config) (code : jsstring) (buttons : list bool) :
  feedback cfg = true ->
  read_only cfg <> Some (lit "false") ->
  outputFeedbackDiv (setupMonacoEditor cfg code) = None /\
  fst (resetButton_onclick Primary (new_InteractiveCell cfg code buttons)) =
    Thrown (TypeError "classList") /\
  fst (resetButton_onclick Appended (new_InteractiveCell cfg code buttons)) = Done tt.
Proof.
  intros Hon Hro.
  assert (Hnull : setupMonacoEditor_outputFeedbackDiv cfg = None).
  { unfold setupMonacoEditor_outputFeedbackDiv. rewrite Hon.
    rewrite bool_decide_eq_false_2 by exact Hro. reflexivity. }
  split; [exact Hnull|].
  unfold resetButton_onclick, new_InteractiveCell, setupMonacoEditor, setupNewMonacoEditor,
    setupNewMonacoEditor_outputFeedbackDiv2, classList_contains, on_outputCodeDiv,
    on_outputGraphDiv.
  rewrite Hnull, Hon. monad_simpl; page_simpl. split; reflexivity.
Qed.

Lemma reset_on_read_only_cell_witness :
  fst (resetButton_onclick Primary
         (new_InteractiveCell (mkConfig true (Some (lit "true")) None (lit "flask") [] [])
            source [false])) = Thrown (TypeError "classList").
Proof.
  assert (Hro : Some (lit "true") <> Some (lit "false")) by discriminate.
  destruct (reset_on_read_only_cell
              (mkConfig true (Some (lit "true")) None (lit "flask") [] []) source [false]
              eq_refl Hro) as (_ & Hthrown & _).
  exact Hthrown.
Defined.

(** X6: Copy after Reset puts the initial snapshot on the clipboard,
    whether Reset returned normally or threw on a missing feedback area:
    the text of the editor is restored before anything else is read. *)
Theorem copy_after_reset (tg : Target) (p : Page) :
  copyButton_onclick tg (snd (resetButton_onclick tg p)) =
  qpyodideinitialCode (target tg p).
Proof.
  assert (Hcopy : forall q, copyButton_onclick tg q = editor_value (target tg q)).
  { intros q. unfold copyButton_onclick. cbn zeta.
    destruct (editor_value (target tg q)); reflexivity. }
  rewrite Hcopy.
  destruct (outputFeedbackDiv (target tg p)) as [fb|] eqn:Hfb.
  - rewrite (reset_with_feedback_area tg p fb Hfb).
    destruct p as [props pr ap bt out figs mpl calls rq al].
    destruct tg; page_simpl; reflexivity.
  - destruct p as [props pr ap bt out figs mpl calls rq al].
    unfold resetButton_onclick, classList_contains.
    destruct tg; page_simpl;
      [destruct pr as [ev ic oc ofb og] | destruct ap as [ev ic oc ofb og]];
      page_simpl; subst ofb; monad_simpl; page_simpl; reflexivity.
Qed.

(** * Further properties of the feedback handler *)

Module MoreFeedbackFacts.

Import EngineFacts FeedbackFacts.

Ltac split_step :=
  match goal with
  | |- context [bool_decide ?P] => destruct (bool_decide P) eqn:?
  | |- context [fetch ?n ?r] => destruct (fetch n r) as [[[? ?]|]|?] eqn:?
  | |- context [match ?x with _ => _ end] => is_var x; destruct x
  | |- context [message ?c] => is_var c; destruct c
  | |- context [content ?m] => is_var m; destruct m
  end.

Ltac grind := repeat (monad_simpl; json_simpl; try split_step).

Lemma keeps_ret {A B} (obs : Page -> B) (a : A) : keeps obs (ret a).
Proof. intros p. reflexivity. Qed.

Lemma keeps_throw {A B} (obs : Page -> B) (e : Exn) : keeps obs (@throw A e).
Proof. intros p. reflexivity. Qed.

Lemma keeps_read {A B} (obs : Page -> B) (f : Page -> A) : keeps obs (read f).
Proof. intros p. reflexivity. Qed.

Lemma keeps_await {A B} (obs : Page -> B) (x : Settled A) : keeps obs (await x).
Proof. intros p. destruct x; reflexivity. Qed.

Lemma keeps_modify {B} (obs : Page -> B) (f : Page -> Page) :
  (forall p, obs (f p) = obs p) -> keeps obs (modify f).
Proof. intros Hf p. apply Hf. Qed.

Lemma keeps_bind {A A' B} (obs : Page -> B) (m : M A) (k : A -> M A') :
  keeps obs m -> (forall a, keeps obs (k a)) -> keeps obs (bind m k).
Proof.
  intros Hm Hk p. unfold bind. specialize (Hm p).
  destruct (m p) as [[a|e] p1]; cbn [snd] in *.
  - rewrite (Hk a p1). exact Hm.
  - exact Hm.
Qed.

Lemma keeps_try_catch {A B} (obs : Page -> B) (m : M A) (h : Exn -> M A) :
  keeps obs m -> (forall e, keeps obs (h e)) -> keeps obs (try_catch m h).
Proof.
  intros Hm Hh p. unfold try_catch. specialize (Hm p).
  destruct (m p) as [[a|e] p1]; cbn [snd] in *.
  - exact Hm.
  - rewrite (Hh e p1). exact Hm.
Qed.

Lemma keeps_alert (tg : Target) (a : Alert) : keeps (outside_feedback tg) (alert a).
Proof. intros [props pr ap bt out figs mpl calls rq al]. destruct tg; reflexivity. Qed.

Lemma keeps_on_outputFeedbackDiv (tg : Target) (prop : string) (f : Region -> Region) :
  keeps (outside_feedback tg) (on_outputFeedbackDiv tg prop f).
Proof.
  intros [props pr ap bt out figs mpl calls rq al].
  unfold on_outputFeedbackDiv. monad_simpl.
  destruct tg; [destruct pr as [ev ic oc [fb|] og] | destruct ap as [ev ic oc [fb|] og]];
    reflexivity.
Qed.

Ltac keeps_tac :=
  repeat first
    [ apply keeps_ret | apply keeps_throw | apply keeps_read | apply keeps_await
    | apply keeps_alert | apply keeps_on_outputFeedbackDiv
    | apply keeps_bind; [|intro]
    | apply keeps_try_catch; [|intro]
    | match goal with
      | |- keeps _ (match ?x with _ => _ end) => destruct x
      | |- keeps _ (if ?b then _ else _) => destruct b
      end
    | progress unfold callbacks, groq_models_then, groq_chat_then, flask_then,
        render_feedback, choices_0_message_content ].

Lemma outside_feedback_eq (tg : Target) (a b : Page) :
  outside_feedback tg a = outside_feedback tg b ->
  this_props a = this_props b /\
  run_buttons a = run_buttons b /\
  figures a = figures b /\
  pyodideMplTarget a = pyodideMplTarget b /\
  besides_feedback (primary a) = besides_feedback (primary b) /\
  besides_feedback (appended a) = besides_feedback (appended b).
Proof.
  unfold outside_feedback. intros H.
  injection H. intros. unfold besides_feedback. repeat split; congruence.
Qed.

Section Handler.

Variable py : Interpreter.
Variable net : Network.
Variable cfg : Config.
Variable formatOutput : list OutputRecord -> jsstring.

(** The first [try] of the handler, for a call that is not stopped at the
    guard. *)
Lemma rerun_unlocked (data : jsstring) (p : Page) :
  truthy_flag (this_props p !! "executeLock") = false ->
  rerun py formatOutput data p =
  match mainPyodide py with
  | Fulfilled _ =>
      (Done (Some (formatOutput (run_records py (py_calls p) data))),
       with_run_buttons (map (fun _ => false) (run_buttons p))
         (with_this_props
            (<["executionLock" := false]> (<["executionLock" := true]> (this_props p)))
            (with_qpyodideOutput (run_records py (py_calls p) data)
               (draw (run_drawn py (py_calls p) data)
                  (with_py_calls (py_calls p ++ run_calls py (py_calls p) data) p)))))
  | Rejected e =>
      (Done (Some (lit "Error: " ++ exn_message e)),
       with_run_buttons (map (fun _ => true) (run_buttons p))
         (with_this_props (<["executionLock" := true]> (this_props p)) p))
  end.
Proof.
  intros Hguard. unfold rerun, executeLock, disableInteractiveCells.
  unfold try_catch. unfold bind at 1. cbn [read]. rewrite Hguard.
  unfold bind at 1. unfold bind at 1. cbn [modify].
  unfold bind at 1. cbn [modify].
  unfold bind at 1.
  destruct (mainPyodide py) as [[]|reason]; cbn [await ret throw].
  - unfold bind at 1. unfold qpyodideResetOutputArray at 1. cbn [modify].
    unfold bind at 1. rewrite run_and_capture_spec.
    unfold qpyodideRetrieveOutput, enableInteractiveCells. monad_simpl.
    destruct p as [props pr ap bt out figs mpl calls rq al].
    unfold draw. page_simpl.
    destruct mpl; page_simpl; rewrite map_map; reflexivity.
  - destruct p as [props pr ap bt out figs mpl calls rq al]. page_simpl. reflexivity.
Qed.

Lemma keeps_call_fetch (tg : Target) (rq : Request) :
  keeps (outside_feedback tg) (call_fetch net rq).
Proof. intros [props pr ap bt out figs mpl calls rqs al]. destruct tg; reflexivity. Qed.

(** What [submit] never writes. *)
Lemma submit_frame (tg : Target) (messages : list (string * jsstring)) :
  keeps (outside_feedback tg) (submit net cfg tg messages).
Proof.
  unfold submit, submit_statements, submit_callbacks, groq_branch, flask_branch.
  repeat (keeps_tac; try apply keeps_call_fetch).
Qed.

(** The remote-model backend, when the first choice of the reply has a
    message. *)
Lemma submit_groq_first_message (tg : Target) (messages : list (string * jsstring))
    (p : Page) (fb : Region) (j : Json) (ids : list jsstring)
    (c : option jsstring) (rest : list Choice) (models : option (list jsstring)) :
  outputFeedbackDiv (target tg p) = Some fb ->
  backend cfg = lit "groq" ->
  apiKeyInput cfg <> [] ->
  fetch net (GET (baseUrlInput cfg ++ lit "/models") (apiKeyInput cfg)) = Fulfilled (Some j) ->
  data j = Some ids ->
  fetch net (POST (baseUrlInput cfg ++ lit "/chat/completions") (Some (apiKeyInput cfg))
               messages (Some (select_model ids))) = Fulfilled (first_message c rest models) ->
  outputFeedbackDiv (target tg (snd (submit net cfg tg messages p))) =
    Some {| innerHTML :=
              feedback_header ::
              match c with
              | Some text => [Div None (replaceNewlinesWithBr text)]
              | None => []
              end;
            has_content := true |} /\
  alerts (snd (submit net cfg tg messages p)) =
    alerts p ++
    match c with
    | Some _ => []
    | None => [AlertError (groq_api_error tg) (TypeError "replace")]
    end.
Proof.
  intros Hfb Hgroq Hkey Hmodels Hdata Hchat.
  assert (Hflask : bool_decide (backend cfg = lit "flask") = false).
  { apply bool_decide_eq_false_2. rewrite Hgroq. discriminate. }
  destruct p as [props pr ap bt out figs mpl calls rq al].
  destruct j as [jd jc]. cbn [data] in Hdata. subst jd.
  unfold first_message in Hchat.
  destruct tg; [destruct pr as [ev ic oc ofb og] | destruct ap as [ev ic oc ofb og]];
    page_simpl; subst ofb; feedback_unfold;
    rewrite (bool_decide_eq_true_2 _ Hgroq), Hflask;
    (destruct (apiKeyInput cfg) as [|k key] eqn:Hk; [congruence|]);
    monad_simpl; page_simpl; cbn [truthy_string negb];
    rewrite Hmodels; monad_simpl; json_simpl; rewrite Hchat; monad_simpl; json_simpl;
    destruct c as [text|]; monad_simpl; json_simpl;
    rewrite ?app_nil_r; (split; reflexivity).
Qed.

(** The local-server backend, when the first choice of the reply has a
    message. *)
Lemma submit_flask_first_message (tg : Target) (messages : list (string * jsstring))
    (p : Page) (fb : Region)
    (c : option jsstring) (rest : list Choice) (models : option (list jsstring)) :
  outputFeedbackDiv (target tg p) = Some fb ->
  backend cfg = lit "flask" ->
  fetch net (POST flask_url None messages None) = Fulfilled (first_message c rest models) ->
  outputFeedbackDiv (target tg (snd (submit net cfg tg messages p))) =
    Some {| innerHTML :=
              feedback_header ::
              match c with
              | Some text => [Div None (replaceNewlinesWithBr text)]
              | None => []
              end;
            has_content := true |} /\
  alerts (snd (submit net cfg tg messages p)) =
    alerts p ++
    match c with
    | Some _ => []
    | None => [AlertError "Error when requesting the API:  " (TypeError "replace")]
    end.
Proof.
  intros Hfb Hflask Hresp.
  assert (Hgroq : bool_decide (backend cfg = lit "groq") = false).
  { apply bool_decide_eq_false_2. rewrite Hflask. discriminate. }
  destruct p as [props pr ap bt out figs mpl calls rq al].
  unfold first_message in Hresp.
  destruct tg; [destruct pr as [ev ic oc ofb og] | destruct ap as [ev ic oc ofb og]];
    page_simpl; subst ofb; feedback_unfold;
    rewrite (bool_decide_eq_true_2 _ Hflask), Hgroq;
    monad_simpl; page_simpl; rewrite Hresp; monad_simpl; json_simpl;
    destruct c as [text|]; monad_simpl; json_simpl;
    rewrite ?app_nil_r; (split; reflexivity).
Qed.

(** The remote-model backend, when the model-list request yields no list
    of ids: the alert, and no chat request. *)
Lemma submit_groq_no_model_list (tg : Target) (messages : list (string * jsstring))
    (p : Page) (fb : Region) :
  outputFeedbackDiv (target tg p) = Some fb ->
  backend cfg = lit "groq" ->
  apiKeyInput cfg <> [] ->
  no_model_list (fetch net (GET (baseUrlInput cfg ++ lit "/models") (apiKeyInput cfg))) = true ->
  outputFeedbackDiv (target tg (snd (submit net cfg tg messages p))) =
    Some (classList_add fb) /\
  requests (snd (submit net cfg tg messages p)) =
    requests p ++ [GET (baseUrlInput cfg ++ lit "/models") (apiKeyInput cfg)] /\
  exists e, alerts (snd (submit net cfg tg messages p)) =
            alerts p ++ [AlertError "Error when retrieving the model list: " e].
Proof.
  intros Hfb Hgroq Hkey Hnone.
  assert (Hflask : bool_decide (backend cfg = lit "flask") = false).
  { apply bool_decide_eq_false_2. rewrite Hgroq. discriminate. }
  destruct p as [props pr ap bt out figs mpl calls rq al].
  destruct tg; [destruct pr as [ev ic oc ofb og] | destruct ap as [ev ic oc ofb og]];
    page_simpl; subst ofb; feedback_unfold;
    rewrite (bool_decide_eq_true_2 _ Hgroq), Hflask;
    (destruct (apiKeyInput cfg) as [|k key] eqn:Hk; [congruence|]);
    monad_simpl; page_simpl; cbn [truthy_string negb];
    destruct (fetch net (GET (baseUrlInput cfg ++ lit "/models") (k :: key)))
      as [[[[ids|] jc]|]|e]; try discriminate Hnone;
    monad_simpl; json_simpl;
    (split; [reflexivity | split; [reflexivity | eexists; reflexivity]]).
Qed.

(** A backend that is neither of the two: no request and no alert; the
    feedback area is marked all the same. *)
Lemma submit_unknown_backend (tg : Target) (messages : list (string * jsstring))
    (p : Page) (fb : Region) :
  outputFeedbackDiv (target tg p) = Some fb ->
  backend cfg <> lit "groq" ->
  backend cfg <> lit "flask" ->
  fst (submit net cfg tg messages p) = Done tt /\
  outputFeedbackDiv (target tg (snd (submit net cfg tg messages p))) =
    Some (classList_add fb) /\
  requests (snd (submit net cfg tg messages p)) = requests p /\
  alerts (snd (submit net cfg tg messages p)) = alerts p.
Proof.
  intros Hfb Hgroq Hflask.
  destruct p as [props pr ap bt out figs mpl calls rq al].
  destruct tg; [destruct pr as [ev ic oc ofb og] | destruct ap as [ev ic oc ofb og]];
    page_simpl; subst ofb; feedback_unfold;
    rewrite (bool_decide_eq_false_2 _ Hgroq), (bool_decide_eq_false_2 _ Hflask);
    monad_simpl; page_simpl; repeat split.
Qed.

(** A call of the handler that is stopped at the guard changes nothing. *)
Lemma feedbackButton_onclick_locked (tg : Target) (p : Page) :
  truthy_flag (this_props p !! "executeLock") = true ->
  feedbackButton_onclick py net cfg formatOutput tg p = (Done tt, p).
Proof.
  intros Hguard. unfold feedbackButton_onclick, rerun, executeLock.
  monad_simpl. rewrite Hguard. reflexivity.
Qed.

(** The handler as [submit] on the page its own run left. *)
Lemma feedbackButton_onclick_unlocked (tg : Target) (p : Page) :
  truthy_flag (this_props p !! "executeLock") = false ->
  feedbackButton_onclick py net cfg formatOutput tg p =
  match rerun py formatOutput (editor_value (target tg p)) p with
  | (Done (Some runtime_message), p1) =>
      submit net cfg tg (exchange runtime_message (editor_value (target tg p))) p1
  | (_, p1) => (Done tt, p1)
  end.
Proof.
  intros Hguard. unfold feedbackButton_onclick.
  unfold bind at 1. cbn [read]. unfold bind at 1.
  rewrite (rerun_unlocked _ p Hguard).
  destruct (mainPyodide py) as [[]|e]; reflexivity.
Qed.

End Handler.
End MoreFeedbackFacts.

Section MoreFeedback.

Variable py : Interpreter.
Variable net : Network.
Variable cfg : Config.
Variable formatOutput : list OutputRecord -> jsstring.

Import EngineFacts FeedbackFacts MoreFeedbackFacts.

(** X7: when the first choice of the reply has a message with a content,
    the feedback area ends with exactly the header and the reply, its
    newlines replaced by <br>, whatever it held before; it is marked, and
    no alert is raised. This holds for both backends. *)
Theorem feedback_renders_reply (tg : Target) (p : Page) (fb : Region)
    (text : jsstring) (rest : list Choice) (models : option (list jsstring)) :
  truthy_flag (this_props p !! "executeLock") = false ->
  outputFeedbackDiv (target tg p) = Some fb ->
  (forall url bearer messages model,
     fetch net (POST url bearer messages model) =
     Fulfilled (first_message (Some text) rest models)) ->
  let after := snd (feedbackButton_onclick py net cfg formatOutput tg p) in
  let rendered :=
    Some {| innerHTML := [feedback_header; Div None (replaceNewlinesWithBr text)];
            has_content := true |} in
  (backend cfg = lit "groq" ->
   apiKeyInput cfg <> [] ->
   forall j ids,
     fetch net (GET (baseUrlInput cfg ++ lit "/models") (apiKeyInput cfg)) = Fulfilled (Some j) ->
     data j = Some ids ->
     outputFeedbackDiv (target tg after) = rendered /\ alerts after = alerts p) /\
  (backend cfg = lit "flask" ->
   outputFeedbackDiv (target tg after) = rendered /\ alerts after = alerts p).
Proof.
  intros Hguard Hfb Hpost after rendered. subst after rendered.
  destruct (feedbackButton_onclick_frame py net cfg formatOutput tg p Hguard)
    as (msg & p1 & Hrun & Htg & _ & Hal).
  rewrite Hrun. rewrite <- Htg in Hfb. rewrite <- Hal.
  split.
  - intros Hgroq Hkey j ids Hmodels Hdata.
    destruct (submit_groq_first_message net cfg tg
                (exchange msg (editor_value (target tg p))) p1 fb j ids (Some text) rest models
                Hfb Hgroq Hkey Hmodels Hdata (Hpost _ _ _ _)) as [Harea Halerts].
    rewrite Harea, Halerts, app_nil_r. split; reflexivity.
  - intros Hflask.
    destruct (submit_flask_first_message net cfg tg
                (exchange msg (editor_value (target tg p))) p1 fb (Some text) rest models
                Hfb Hflask (Hpost _ _ _ _)) as [Harea Halerts].
    rewrite Harea, Halerts, app_nil_r. split; reflexivity.
Qed.

(** X8: when the message of the first choice has no content, the handler
    has already put the header into the cleared feedback area when it
    fails on the missing text: the area ends with the header alone, and
    the failure is raised as an alert. This holds for both backends. *)
Theorem feedback_header_without_reply (tg : Target) (p : Page) (fb : Region)
    (rest : list Choice) (models : option (list jsstring)) :
  truthy_flag (this_props p !! "executeLock") = false ->
  outputFeedbackDiv (target tg p) = Some fb ->
  (forall url bearer messages model,
     fetch net (POST url bearer messages model) = Fulfilled (first_message None rest models)) ->
  let after := snd (feedbackButton_onclick py net cfg formatOutput tg p) in
  let header_only := Some {| innerHTML := [feedback_header]; has_content := true |} in
  (backend cfg = lit "groq" ->
   apiKeyInput cfg <> [] ->
   forall j ids,
     fetch net (GET (baseUrlInput cfg ++ lit "/models") (apiKeyInput cfg)) = Fulfilled (Some j) ->
     data j = Some ids ->
     outputFeedbackDiv (target tg after) = header_only /\
     alerts after = alerts p ++ [AlertError (groq_api_error tg) (TypeError "replace")]) /\
  (backend cfg = lit "flask" ->
   outputFeedbackDiv (target tg after) = header_only /\
   alerts after =
     alerts p ++ [AlertError "Error when requesting the API:  " (TypeError "replace")]).
Proof.
  intros Hguard Hfb Hpost after header_only. subst after header_only.
  destruct (feedbackButton_onclick_frame py net cfg formatOutput tg p Hguard)
    as (msg & p1 & Hrun & Htg & _ & Hal).
  rewrite Hrun. rewrite <- Htg in Hfb. rewrite <- Hal.
  split.
  - intros Hgroq Hkey j ids Hmodels Hdata.
    exact (submit_groq_first_message net cfg tg _ p1 fb j ids None rest models
             Hfb Hgroq Hkey Hmodels Hdata (Hpost _ _ _ _)).
  - intros Hflask.
    exact (submit_flask_first_message net cfg tg _ p1 fb None rest models
             Hfb Hflask (Hpost _ _ _ _)).
Qed.

(** X9: with the remote-model backend and a credential, when the
    model-list request fails or its body has no list of ids, the handler
    raises the model-list alert and makes no chat request: the model-list
    request is the only one. The feedback area keeps its content and is
    marked. *)
Theorem feedback_without_model_list (tg : Target) (p : Page) (fb : Region) :
  truthy_flag (this_props p !! "executeLock") = false ->
  outputFeedbackDiv (target tg p) = Some fb ->
  backend cfg = lit "groq" ->
  apiKeyInput cfg <> [] ->
  no_model_list (fetch net (GET (baseUrlInput cfg ++ lit "/models") (apiKeyInput cfg))) = true ->
  let after := snd (feedbackButton_onclick py net cfg formatOutput tg p) in
  outputFeedbackDiv (target tg after) = Some (classList_add fb) /\
  requests after = requests p ++ [GET (baseUrlInput cfg ++ lit "/models") (apiKeyInput cfg)] /\
  exists e, alerts after = alerts p ++ [AlertError "Error when retrieving the model list: " e].
Proof.
  intros Hguard Hfb Hgroq Hkey Hnone after. subst after.
  destruct (feedbackButton_onclick_frame py net cfg formatOutput tg p Hguard)
    as (msg & p1 & Hrun & Htg & Hrq & Hal).
  rewrite Hrun. rewrite <- Htg in Hfb. rewrite <- Hal, <- Hrq.
  exact (submit_groq_no_model_list net cfg tg _ p1 fb Hfb Hgroq Hkey Hnone).
Qed.

(** X10: when [globalThis.backend] is neither "groq" nor "flask", the
    handler returns normally and marks the feedback area, but makes no
    request and raises no alert; the content of the area is as before. *)
Theorem feedback_unknown_backend (tg : Target) (p : Page) (fb : Region) :
  truthy_flag (this_props p !! "executeLock") = false ->
  outputFeedbackDiv (target tg p) = Some fb ->
  backend cfg <> lit "groq" ->
  backend cfg <> lit "flask" ->
  let after := feedbackButton_onclick py net cfg formatOutput tg p in
  fst after = Done tt /\
  outputFeedbackDiv (target tg (snd after)) = Some (classList_add fb) /\
  requests (snd after) = requests p /\
  alerts (snd after) = alerts p.
Proof.
  intros Hguard Hfb Hgroq Hflask after. subst after.
  destruct (feedbackButton_onclick_frame py net cfg formatOutput tg p Hguard)
    as (msg & p1 & Hrun & Htg & Hrq & Hal).
  rewrite Hrun. rewrite <- Htg in Hfb. rewrite <- Hal, <- Hrq.
  exact (submit_unknown_backend net cfg tg _ p1 fb Hfb Hgroq Hflask).
Qed.

(** X11: the run the handler starts with takes the lock like [runCode].
    When the interpreter is ready the handler ends with the lock released
    and every run button enabled; when awaiting the interpreter fails, the
    failure is caught and becomes the text sent to the backend, but the
    lock stays set and every run button stays disabled. *)
Theorem feedback_run_lock (tg : Target) (p : Page) :
  truthy_flag (this_props p !! "executeLock") = false ->
  let after := snd (feedbackButton_onclick py net cfg formatOutput tg p) in
  match mainPyodide py with
  | Fulfilled _ =>
      this_props after !! "executionLock" = Some false /\
      run_buttons after = map (fun _ => false) (run_buttons p)
  | Rejected _ =>
      this_props after !! "executionLock" = Some true /\
      run_buttons after = map (fun _ => true) (run_buttons p)
  end.
Proof.
  intros Hguard after. subst after.
  rewrite (feedbackButton_onclick_unlocked py net cfg formatOutput tg p Hguard).
  rewrite (rerun_unlocked py formatOutput _ p Hguard).
  destruct (mainPyodide py) as [[]|e]; cbv beta iota;
    match goal with
    | |- context [submit net cfg tg ?m ?q] =>
        destruct (outside_feedback_eq tg _ _ (submit_frame net cfg tg m q))
          as (Hprops & Hbuttons & _)
    end;
    rewrite Hprops, Hbuttons;
    destruct p as [props pr ap bt out figs mpl calls rq al];
    unfold draw; destruct mpl; page_simpl;
    (split; [apply lookup_insert_eq | reflexivity]).
Qed.

(** X12: whatever becomes of it, a feedback request leaves the text of
    both editors, their initial snapshots and the output areas of both
    targets as they are, and changes the mark of no graph area: what its
    run captured is sent to the backend and not rendered. The content of
    the graph areas is left out: the figure one of them shows is the
    element [document.pyodideMplTarget] still refers to, and what the run
    of the handler draws is added to it. *)
Theorem feedback_leaves_output_areas (tg : Target) (p : Page) :
  let after := snd (feedbackButton_onclick py net cfg formatOutput tg p) in
  forall t,
    editor_value (target t after) = editor_value (target t p) /\
    qpyodideinitialCode (target t after) = qpyodideinitialCode (target t p) /\
    outputCodeDiv (target t after) = outputCodeDiv (target t p) /\
    has_content (outputGraphDiv (target t after)) = has_content (outputGraphDiv (target t p)).
Proof.
  intros after t. subst after.
  destruct (truthy_flag (this_props p !! "executeLock")) eqn:Hguard.
  - rewrite (feedbackButton_onclick_locked py net cfg formatOutput tg p Hguard).
    repeat split.
  - rewrite (feedbackButton_onclick_unlocked py net cfg formatOutput tg p Hguard).
    destruct (rerun_frame py formatOutput (editor_value (target tg p)) p Hguard)
      as (msg & p1 & Hrun & Hpr & Hap & _ & _).
    rewrite Hrun.
    destruct (outside_feedback_eq tg _ _
                (submit_frame net cfg tg (exchange msg (editor_value (target tg p))) p1))
      as (_ & _ & _ & _ & H1 & H2).
    rewrite Hpr in H1. rewrite Hap in H2.
    unfold besides_feedback in H1, H2.
    injection H1 as He1 Hi1 Ho1 Hg1. injection H2 as He2 Hi2 Ho2 Hg2.
    destruct t; unfold target; repeat split; try assumption; f_equal; assumption.
Qed.

(** X13: unlike [runCode], the run of the feedback handler installs no new
    figure: what the source draws is added to the figure the last run left
    as [document.pyodideMplTarget], after what is already in it. *)
Theorem feedback_run_draws_into_last_figure (tg : Target) (p : Page)
    (i : nat) (kids : list N) :
  truthy_flag (this_props p !! "executeLock") = false ->
  mainPyodide py = Fulfilled tt ->
  pyodideMplTarget p = Some i ->
  figures p !! i = Some kids ->
  let after := snd (feedbackButton_onclick py net cfg formatOutput tg p) in
  pyodideMplTarget after = Some i /\
  length (figures after) = length (figures p) /\
  figures after !! i =
    Some (kids ++ run_drawn py (py_calls p) (editor_value (target tg p))).
Proof.
  intros Hguard Hready Hmpl Hkids after. subst after.
  rewrite (feedbackButton_onclick_unlocked py net cfg formatOutput tg p Hguard).
  rewrite (rerun_unlocked py formatOutput _ p Hguard). rewrite Hready. cbv beta iota.
  match goal with
  | |- context [submit net cfg tg ?m ?q] =>
      destruct (outside_feedback_eq tg _ _ (submit_frame net cfg tg m q))
        as (_ & _ & Hfigs & Htarget & _)
  end.
  rewrite Hfigs, Htarget.
  destruct p as [props pr ap bt out figs mpl calls rq al].
  page_simpl. subst mpl. unfold draw. page_simpl.
  split; [reflexivity|]. split; [apply length_alter|].
  rewrite list_lookup_alter_eq, Hkids. reflexivity.
Qed.

End MoreFeedback.

(** The page a run has left a figure on, for the local-server backend. *)
Lemma feedback_run_draws_into_last_figure_witness :
  figures (snd (runCode py_echo cfg_flask fmt_concat source (page_of cfg_flask))) = [[1]] /\
  figures
    (snd (feedbackButton_onclick py_echo (net_replies [] (lit "ok")) cfg_flask fmt_concat Primary
            (snd (runCode py_echo cfg_flask fmt_concat source (page_of cfg_flask)))))
    !! 0%nat = Some [1; 1].
Proof.
  assert (Hguard : truthy_flag
            (this_props (snd (runCode py_echo cfg_flask fmt_concat source (page_of cfg_flask)))
               !! "executeLock") = false) by (vm_compute; reflexivity).
  assert (Hmpl : pyodideMplTarget
            (snd (runCode py_echo cfg_flask fmt_concat source (page_of cfg_flask)))
            = Some 0%nat) by (vm_compute; reflexivity).
  assert (Hkids : figures
            (snd (runCode py_echo cfg_flask fmt_concat source (page_of cfg_flask)))
            !! 0%nat = Some [1]) by (vm_compute; reflexivity).
  split; [vm_compute; reflexivity|].
  destruct (feedback_run_draws_into_last_figure py_echo (net_replies [] (lit "ok")) cfg_flask
              fmt_concat Primary _ 0%nat [1] Hguard eq_refl Hmpl Hkids) as (_ & _ & Hdrawn).
  rewrite Hdrawn. vm_compute. reflexivity.
Defined.

(** A reply with two lines, from either backend. *)
Lemma feedback_renders_reply_witness :
  outputFeedbackDiv
    (target Primary
       (snd (feedbackButton_onclick py_echo (net_replies listed_models [111; 10; 107])
               cfg_flask fmt_concat Primary (page_with_reply cfg_flask)))) =
  Some {| innerHTML := [feedback_header; Div None ([111] ++ lit "<br>" ++ [107])];
          has_content := true |}.
Proof.
  assert (Hguard : truthy_flag (this_props (page_with_reply cfg_flask) !! "executeLock")
                   = false) by (vm_compute; reflexivity).
  assert (Hfb : outputFeedbackDiv (target Primary (page_with_reply cfg_flask))
                = Some earlier_reply) by (vm_compute; reflexivity).
  destruct (feedback_renders_reply py_echo (net_replies listed_models [111; 10; 107])
              cfg_flask fmt_concat Primary (page_with_reply cfg_flask) earlier_reply
              [111; 10; 107] [] None Hguard Hfb (fun _ _ _ _ => eq_refl)) as [_ Hflask].
  destruct (Hflask eq_refl) as [Harea _].
  rewrite Harea. reflexivity.
Defined.

(** A server whose reply has a message without content. *)
Lemma feedback_header_without_reply_witness :
  outputFeedbackDiv
    (target Primary
       (snd (feedbackButton_onclick py_echo net_no_content cfg_flask fmt_concat Primary
               (page_with_reply cfg_flask)))) =
  Some {| innerHTML := [feedback_header]; has_content := true |}.
Proof.
  assert (Hguard : truthy_flag (this_props (page_with_reply cfg_flask) !! "executeLock")
                   = false) by (vm_compute; reflexivity).
  assert (Hfb : outputFeedbackDiv (target Primary (page_with_reply cfg_flask))
                = Some earlier_reply) by (vm_compute; reflexivity).
  destruct (feedback_header_without_reply py_echo net_no_content cfg_flask fmt_concat Primary
              (page_with_reply cfg_flask) earlier_reply [] None Hguard Hfb
              (fun _ _ _ _ => eq_refl)) as [_ Hflask].
  destruct (Hflask eq_refl) as [Harea _].
  exact Harea.
Defined.

(** The network is down, the remote-model backend has a credential. *)
Lemma feedback_without_model_list_witness :
  requests (snd (feedbackButton_onclick py_echo net_down (cfg_groq api_key) fmt_concat Primary
                   (page_of (cfg_groq api_key)))) =
  [GET (lit "https://api.groq.com/openai/v1/models") api_key].
Proof.
  assert (Hguard : truthy_flag (this_props (page_of (cfg_groq api_key)) !! "executeLock")
                   = false) by (vm_compute; reflexivity).
  assert (Hfb : outputFeedbackDiv (target Primary (page_of (cfg_groq api_key)))
                = Some (mkRegion [] false)) by (vm_compute; reflexivity).
  assert (Hkey : apiKeyInput (cfg_groq api_key) <> []) by discriminate.
  destruct (feedback_without_model_list py_echo net_down (cfg_groq api_key) fmt_concat Primary
              (page_of (cfg_groq api_key)) (mkRegion [] false) Hguard Hfb eq_refl Hkey eq_refl)
    as (_ & Hrq & _).
  rewrite Hrq. reflexivity.
Defined.

(** A page whose backend setting is misspelt. *)
Lemma feedback_unknown_backend_witness :
  requests (snd (feedbackButton_onclick py_echo net_down cfg_other fmt_concat Primary
                   (page_of cfg_other))) = [] /\
  outputFeedbackDiv
    (target Primary (snd (feedbackButton_onclick py_echo net_down cfg_other fmt_concat Primary
                            (page_of cfg_other)))) =
  Some {| innerHTML := []; has_content := true |}.
Proof.
  assert (Hguard : truthy_flag (this_props (page_of cfg_other) !! "executeLock") = false)
    by (vm_compute; reflexivity).
  assert (Hfb : outputFeedbackDiv (target Primary (page_of cfg_other))
                = Some (mkRegion [] false)) by (vm_compute; reflexivity).
  assert (Hg : backend cfg_other <> lit "groq") by discriminate.
  assert (Hf : backend cfg_other <> lit "flask") by discriminate.
  destruct (feedback_unknown_backend py_echo net_down cfg_other fmt_concat Primary
              (page_of cfg_other) (mkRegion [] false) Hguard Hfb Hg Hf)
    as (_ & Harea & Hrq & _).
  split; [exact Hrq | exact Harea].
Defined.

(** An interpreter that failed to initialise: the handler leaves the lock
    set. *)
Lemma feedback_run_lock_witness :
  this_props (snd (feedbackButton_onclick py_not_ready net_down cfg_flask fmt_concat Primary
                     (page_of cfg_flask))) !! "executionLock" = Some true.
Proof.
  assert (Hguard : truthy_flag (this_props (page_of cfg_flask) !! "executeLock") = false)
    by (vm_compute; reflexivity).
  pose proof (feedback_run_lock py_not_ready net_down cfg_flask fmt_concat Primary
                (page_of cfg_flask) Hguard) as H.
  cbn beta zeta iota delta [mainPyodide py_not_ready] in H.
  exact (proj1 H).
Defined.

(** * Properties of the model choice and of the rendering of a reply *)

(** X14: the model the chat request names is always one of the listed
    ids, the preferred one whenever it is listed; it is undefined only
    when the list is empty. *)
Theorem select_model_is_listed (modelIds : list jsstring) :
  match select_model modelIds with
  | Some m => m ∈ modelIds /\ (preferred_model ∈ modelIds -> m = preferred_model)
  | None => modelIds = []
  end.
Proof.
  unfold select_model. destruct (bool_decide (preferred_model ∈ modelIds)) eqn:Hin.
  - apply bool_decide_eq_true_1 in Hin. split; [exact Hin | reflexivity].
  - apply bool_decide_eq_false_1 in Hin.
    destruct modelIds as [|m rest]; cbn; [reflexivity|].
    split; [left | intros H; contradiction].
Qed.

(** X15: no newline is left in a reply prepared for the feedback area. *)
Theorem replaceNewlinesWithBr_no_newline (text : jsstring) :
  Forall (fun c => c <> 10) (replaceNewlinesWithBr text).
Proof.
  induction text as [|c rest IH]; cbn [replaceNewlinesWithBr].
  - constructor.
  - destruct (N.eqb_spec c 10) as [->|Hc].
    + apply Forall_app. split; [|exact IH].
      repeat constructor; discriminate.
    + constructor; assumption.
Qed.

(** X16: preparing a reply works piece by piece: the prepared form of a
    concatenation is the concatenation of the prepared forms, and a text
    without newline is left as it is. *)
Theorem replaceNewlinesWithBr_app (a b : jsstring) :
  replaceNewlinesWithBr (a ++ b) = replaceNewlinesWithBr a ++ replaceNewlinesWithBr b /\
  (10 ∉ a -> replaceNewlinesWithBr a = a).
Proof.
  split.
  - induction a as [|c rest IH]; cbn [replaceNewlinesWithBr app]; [reflexivity|].
    rewrite IH. destruct (c =? 10); [rewrite <- app_assoc|]; reflexivity.
  - induction a as [|c rest IH]; intros Hnot; cbn [replaceNewlinesWithBr]; [reflexivity|].
    destruct (N.eqb_spec c 10) as [->|Hc].
    + exfalso. apply Hnot. left.
    + f_equal. apply IH. intros Hin. apply Hnot. right. exact Hin.
Qed.

(** * Properties of the cell factory and the cell container *)

Section Container.

Variable runPython : list jsstring -> jsstring -> Settled jsstring.

(** X17: the factory gives an interactive cell for every context tag but
    "output" and "setup", an absent tag included, and the cell it gives
    always carries the declared code. *)
Theorem qpyodideCreateCell_default (cellData : CellData) :
  cell_code (qpyodideCreateCell cellData) = cd_code cellData /\
  (cell_class (qpyodideCreateCell cellData) = OutputCell <->
   cd_context cellData = Some (lit "output")) /\
  (cell_class (qpyodideCreateCell cellData) = SetupCell <->
   cd_context cellData = Some (lit "setup")) /\
  (cell_class (qpyodideCreateCell cellData) = InteractiveCell <->
   cd_context cellData <> Some (lit "output") /\ cd_context cellData <> Some (lit "setup")).
Proof.
  assert (Hio : lit "interactive" <> lit "output") by (intros H; vm_compute in H; discriminate H).
  assert (His : lit "interactive" <> lit "setup") by (intros H; vm_compute in H; discriminate H).
  assert (Hos : lit "output" <> lit "setup") by (intros H; vm_compute in H; discriminate H).
  unfold qpyodideCreateCell.
  repeat case_bool_decide; cbn [cell_code cell_class];
    (split; [reflexivity|]);
    repeat split; intros; try congruence;
    try (match goal with H : _ /\ _ |- _ => destruct H end; congruence).
Qed.

Lemma qpyodideCreateCell_code (cellData : CellData) :
  cell_code (qpyodideCreateCell cellData) = cd_code cellData.
Proof. unfold qpyodideCreateCell. repeat case_bool_decide; reflexivity. Qed.

Lemma executeAllCells_app (pre post : list CellObject) (ran : list jsstring) :
  executeAllCells runPython (pre ++ post) ran =
  match executeAllCells runPython pre ran with
  | (Done _, ran1) => executeAllCells runPython post ran1
  | (Thrown e, ran1) => (Thrown e, ran1)
  end.
Proof.
  revert ran. induction pre as [|c pre IH]; intros ran; cbn [app executeAllCells]; [reflexivity|].
  unfold executeCode. destruct (runPython ran (cell_code c)); [apply IH | reflexivity].
Qed.

(** X18: when no source throws, [executeAllCells] on a container filled
    from a list of declarations runs the code of every declaration, once
    each and in the order of the declarations, whatever the class of the
    cell. *)
Theorem executeAllCells_runs_in_order (declarations : list CellData) (ran : list jsstring) :
  (forall earlier code, exists v, runPython earlier code = Fulfilled v) ->
  executeAllCells runPython
    (fold_left addCell (map qpyodideCreateCell declarations) []) ran =
  (Done tt, ran ++ map cd_code declarations).
Proof.
  intros Hok.
  assert (Hfill : forall cells acc, fold_left addCell cells acc = acc ++ cells).
  { induction cells as [|c cells IH]; intros acc; cbn [fold_left].
    - rewrite app_nil_r. reflexivity.
    - rewrite IH. unfold addCell. rewrite <- app_assoc. reflexivity. }
  rewrite Hfill. cbn [app].
  revert ran. induction declarations as [|d ds IH]; intros ran; cbn [map executeAllCells].
  - rewrite app_nil_r. reflexivity.
  - unfold executeCode. destruct (Hok ran (cell_code (qpyodideCreateCell d))) as [v Hv].
    rewrite Hv, IH. rewrite <- app_assoc.
    rewrite qpyodideCreateCell_code. reflexivity.
Qed.

(** X19: [executeAllCells] stops at the first cell whose source throws:
    the error leaves it, and no later cell is run. *)
Theorem executeAllCells_stops_at_first_error (pre post : list CellObject) (c : CellObject)
    (ran ran1 : list jsstring) (e : Exn) :
  executeAllCells runPython pre ran = (Done tt, ran1) ->
  runPython ran1 (cell_code c) = Rejected e ->
  executeAllCells runPython (pre ++ c :: post) ran = (Thrown e, ran1 ++ [cell_code c]).
Proof.
  intros Hpre Hfail. rewrite executeAllCells_app, Hpre.
  cbn [executeAllCells]. unfold executeCode. rewrite Hfail. reflexivity.
Qed.

(** X20: no class of cell defines [autoRunExecuteCode]: on a container
    that holds at least one cell, [autoRunExecuteAllCells] throws a
    TypeError at the first cell and runs nothing; on an empty container it
    returns normally. *)
Theorem autoRunExecuteAllCells_throws
    (impl : CellObject -> list jsstring -> Settled jsstring * list jsstring)
    (cells : list CellObject) (ran : list jsstring) :
  autoRunExecuteAllCells impl cells ran =
  match cells with
  | [] => (Done tt, ran)
  | _ :: _ => (Thrown (TypeError "autoRunExecuteCode"), ran)
  end.
Proof.
  destruct cells as [|[[] code] rest]; reflexivity.
Qed.

End Container.

Lemma executeAllCells_runs_in_order_witness :
  executeAllCells (fun _ code => Fulfilled code)
    (fold_left addCell
       (map qpyodideCreateCell
          [mkCellData (lit "import numpy") [49] (Some (lit "setup"));
           mkCellData source [50] None]) []) [] =
  (Done tt, [lit "import numpy"; source]).
Proof.
  exact (executeAllCells_runs_in_order (fun _ code => Fulfilled code)
           [mkCellData (lit "import numpy") [49] (Some (lit "setup"));
            mkCellData source [50] None] []
           (fun _ code => ex_intro _ code eq_refl)).
Defined.

Lemma executeAllCells_stops_at_first_error_witness :
  executeAllCells
    (fun _ code => if bool_decide (code = source) then Rejected (Raised (lit "NameError"))
                   else Fulfilled code)
    ([mkCellObject SetupCell (lit "import numpy")] ++
     mkCellObject InteractiveCell source :: [mkCellObject OutputCell (lit "x")]) [] =
  (Thrown (Raised (lit "NameError")), [lit "import numpy"] ++ [source]).
Proof.
  apply (executeAllCells_stops_at_first_error
           (fun _ code => if bool_decide (code = source) then Rejected (Raised (lit "NameError"))
                          else Fulfilled code)
           [mkCellObject SetupCell (lit "import numpy")] [mkCellObject OutputCell (lit "x")]
           (mkCellObject InteractiveCell source) [] [lit "import numpy"]
           (Raised (lit "NameError")));
    vm_compute; reflexivity.
Defined.

(** * Properties of the "add code block" button *)

Lemma id_suffix_succ (n : nat) : lit ".2" ++ id_suffix n = id_suffix (S n).
Proof.
  induction n as [|k IH]; [reflexivity|].
  cbn [id_suffix] in *. rewrite app_assoc, IH. reflexivity.
Qed.

(** X21: with the feedback flag on, the first click on the button appends
    one block, created under the id of the cell with the suffix ".2",
    gives its buttons their handlers and disables the button: however
    often the button is clicked, there is exactly that one block. *)
Theorem addCodeBlock_once (cfg : Config) (id : jsstring) (clicks : nat) :
  feedback cfg = true ->
  Nat.iter (S clicks) (click_addCodeBlockButton cfg) (new_blocks id) =
  {| this_id := id ++ lit ".2";
     appended_blocks := [id ++ lit ".2"];
     run_handlers := [id ++ lit ".2"];
     feedback_handlers := [id ++ lit ".2"];
     addCodeBlockButton_disabled := true |}.
Proof.
  intros Hon. induction clicks as [|n IH].
  - cbn [Nat.iter]. unfold click_addCodeBlockButton, addCodeBlockButton_onclick,
      setupNewMonacoEditor_handlers, setupNewElement, new_blocks.
    cbn. rewrite Hon. reflexivity.
  - change (Nat.iter (S (S n)) (click_addCodeBlockButton cfg) (new_blocks id))
      with (click_addCodeBlockButton cfg
              (Nat.iter (S n) (click_addCodeBlockButton cfg) (new_blocks id))).
    rewrite IH. reflexivity.
Qed.

Lemma addCodeBlock_once_witness :
  appended_blocks (Nat.iter 3 (click_addCodeBlockButton cfg_flask) (new_blocks [49])) =
  [[49] ++ lit ".2"].
Proof.
  rewrite (addCodeBlock_once cfg_flask [49] 2 eq_refl). reflexivity.
Defined.

(** X22: with the feedback flag off, the handler of the button throws on
    the missing feedback button of the new block before it disables the
    button. Every click appends one more block, whose id is the id of the
    last one with one more ".2", and wires its run button; after [n]
    clicks there are [n] blocks and the button is still enabled. *)
Theorem addCodeBlock_never_disabled (cfg : Config) (id : jsstring) (n : nat) :
  feedback cfg = false ->
  let b := Nat.iter n (click_addCodeBlockButton cfg) (new_blocks id) in
  b = {| this_id := id ++ id_suffix n;
         appended_blocks := map (fun k => id ++ id_suffix k) (seq 1 n);
         run_handlers := map (fun k => id ++ id_suffix k) (seq 1 n);
         feedback_handlers := [];
         addCodeBlockButton_disabled := false |} /\
  fst (addCodeBlockButton_onclick cfg b) = Thrown (TypeError "onclick").
Proof.
  intros Hoff b. subst b. induction n as [|k [IH _]].
  - split.
    + cbn. rewrite app_nil_r. reflexivity.
    + unfold addCodeBlockButton_onclick, setupNewMonacoEditor_handlers. rewrite Hoff. reflexivity.
  - split.
    + change (Nat.iter (S k) (click_addCodeBlockButton cfg) (new_blocks id))
        with (click_addCodeBlockButton cfg
                (Nat.iter k (click_addCodeBlockButton cfg) (new_blocks id))).
      rewrite IH.
      unfold click_addCodeBlockButton, addCodeBlockButton_onclick,
        setupNewMonacoEditor_handlers, setupNewElement.
      cbn [addCodeBlockButton_disabled this_id appended_blocks run_handlers feedback_handlers].
      rewrite Hoff. cbn [snd id_suffix].
      rewrite seq_S, map_app. cbn [map Nat.add id_suffix].
      rewrite <- !app_assoc. reflexivity.
    + unfold addCodeBlockButton_onclick, setupNewMonacoEditor_handlers. rewrite Hoff. reflexivity.
Qed.

Lemma addCodeBlock_never_disabled_witness :
  appended_blocks (Nat.iter 2 (click_addCodeBlockButton cfg_default) (new_blocks [49])) =
    [[49] ++ lit ".2"; [49] ++ lit ".2.2"] /\
  addCodeBlockButton_disabled
    (Nat.iter 2 (click_addCodeBlockButton cfg_default) (new_blocks [49])) = false.
Proof.
  destruct (addCodeBlock_never_disabled cfg_default [49] 2 eq_refl) as [Hb _].
  rewrite Hb. split; reflexivity.
Defined.

(** * Properties of the settings panel *)

Lemma saved_setItem_eq (key : string) (v : jsstring) (s : Panel) :
  v <> [] -> saved key (setItem key v s) = Some v.
Proof.
  intros Hv. unfold saved, setItem. cbn [sessionStorage].
  rewrite lookup_insert_eq. destruct v; [congruence | reflexivity].
Qed.

Lemma saved_loaded (key : string) (s : Panel) :
  saved key (loaded (sessionStorage s)) = saved key s.
Proof. reflexivity. Qed.

(** X23: a key and a base url that were both saved in the panel come back
    after the page is loaded again: the listener of the panel fills both
    inputs with the saved values and hides the fields. *)
Theorem panel_restores_saved_pair (s0 : Panel) (key url : jsstring) :
  key <> [] ->
  url <> [] ->
  let s := panel_run s0 [TypeApiKey key; ClickSaveApiKey; TypeBaseUrl url; ClickSaveBaseUrl] in
  let reloaded := panel_DOMContentLoaded (loaded (sessionStorage s)) in
  sessionStorage s !! "groqApiKey" = Some key /\
  sessionStorage s !! "baseUrlInput" = Some url /\
  apiKey_value reloaded = key /\
  baseUrl_value reloaded = url /\
  apiKeyInput_display reloaded = DisplayNone /\
  saveButton_display reloaded = DisplayNone /\
  baseUrlInput_display reloaded = DisplayNone /\
  saveButton2_display reloaded = DisplayNone.
Proof.
  intros Hkey Hurl s reloaded.
  assert (Hs : sessionStorage s =
               <["baseUrlInput" := url]> (<["groqApiKey" := key]> (sessionStorage s0))).
  { subst s. destruct s0 as [st k u d1 d2 d3 d4 al].
    destruct key as [|c key]; [congruence|]. destruct url as [|c' url]; [congruence|].
    cbn [panel_run fold_left panel_step]. unfold saveButton_click, saveButton2_click.
    cbn [apiKey_value baseUrl_value truthy_string].
    unfold checkAndHideSettings.
    repeat match goal with
           | |- context [match saved ?k ?x with _ => _ end] => destruct (saved k x)
           end; reflexivity. }
  assert (Hk : sessionStorage s !! "groqApiKey" = Some key).
  { rewrite Hs, lookup_insert_ne by discriminate. apply lookup_insert_eq. }
  assert (Hu : sessionStorage s !! "baseUrlInput" = Some url).
  { rewrite Hs. apply lookup_insert_eq. }
  split; [exact Hk|]. split; [exact Hu|].
  subst reloaded. unfold panel_DOMContentLoaded, saved, loaded. cbn [sessionStorage].
  rewrite Hk, Hu.
  destruct key as [|c key]; [congruence|]. destruct url as [|c' url]; [congruence|].
  cbn. repeat split.
Qed.

Lemma panel_restores_saved_pair_witness :
  apiKey_value
    (panel_DOMContentLoaded
       (loaded (sessionStorage
                  (panel_run (loaded ∅)
                     [TypeApiKey api_key; ClickSaveApiKey;
                      TypeBaseUrl (lit "https://api.groq.com/openai/v1"); ClickSaveBaseUrl])))) =
  api_key.
Proof.
  assert (Hk : api_key <> []) by discriminate.
  assert (Hu : lit "https://api.groq.com/openai/v1" <> []) by discriminate.
  destruct (panel_restores_saved_pair (loaded ∅) api_key (lit "https://api.groq.com/openai/v1")
              Hk Hu) as (_ & _ & Hrestored & _).
  exact Hrestored.
Defined.

(** No event of the panel writes the key ['apiKey'] of the session
    storage. *)
Lemma panel_step_leaves_apiKey (s : Panel) (ev : PanelEvent) :
  sessionStorage (panel_step s ev) !! "apiKey" = sessionStorage s !! "apiKey".
Proof.
  destruct s as [st k u d1 d2 d3 d4 al].
  destruct ev; cbn [panel_step]; try reflexivity;
    unfold saveButton_click, saveButton2_click, checkAndHideSettings;
    cbn [apiKey_value baseUrl_value];
    repeat match goal with
           | |- context [if truthy_string ?x then _ else _] => destruct (truthy_string x)
           | |- context [match saved ?k ?x with _ => _ end] => destruct (saved k x)
           end;
    cbn [sessionStorage toggleSettings setItem panel_alert];
    try reflexivity; apply lookup_insert_ne; discriminate.
Qed.

Lemma panel_run_leaves_apiKey (evs : list PanelEvent) (s : Panel) :
  sessionStorage (panel_run s evs) !! "apiKey" = sessionStorage s !! "apiKey".
Proof.
  revert s. induction evs as [|ev evs IH]; intros s; [reflexivity|].
  cbn [panel_run fold_left]. etransitivity; [apply IH | apply panel_step_leaves_apiKey].
Qed.

(** X24: the panel saves the credential under the key ['groqApiKey'],
    and the listener of the cell looks for it under ['apiKey']. Whatever
    the user types and saves in the panel in a session that began with an
    empty storage, the listener of the cell restores nothing: after the
    page is loaded again it leaves the input empty. *)
Theorem cell_listener_restores_nothing (cfg : Config) (evs : list PanelEvent) :
  cell_DOMContentLoaded cfg (loaded (sessionStorage (panel_run (loaded ∅) evs))) =
  loaded (sessionStorage (panel_run (loaded ∅) evs)).
Proof.
  unfold cell_DOMContentLoaded, saved. cbn [sessionStorage loaded].
  rewrite panel_run_leaves_apiKey. cbn [sessionStorage loaded].
  rewrite lookup_empty. destruct (bool_decide _); reflexivity.
Qed.

(** * From the settings panel to the feedback handler *)

Section PanelAndFeedback.

Variable py : Interpreter.
Variable net : Network.
Variable cfg : Config.
Variable formatOutput : list OutputRecord -> jsstring.

Import FeedbackFacts.

(** X25: a credential that was saved without a base url is of no use
    after the page is loaded again. With only the key in the session
    storage, both listeners leave the input of the key empty, and a
    feedback request under the remote-model backend prompts for the key
    and makes no request. *)
Theorem saved_key_alone_is_not_restored (tg : Target) (p : Page)
    (storage : gmap string jsstring) :
  truthy_flag (this_props p !! "executeLock") = false ->
  backend cfg = lit "groq" ->
  storage !! "baseUrlInput" = None ->
  storage !! "apiKey" = None ->
  let panel := cell_DOMContentLoaded cfg (panel_DOMContentLoaded (loaded storage)) in
  let after :=
    snd (feedbackButton_onclick py net (with_inputs cfg panel) formatOutput tg p) in
  apiKey_value panel = [] /\
  alerts after = alerts p ++ [AlertText "Please enter your API Key."] /\
  requests after = requests p.
Proof.
  intros Hguard Hgroq Hurl Hkey panel after.
  assert (Hpanel : panel = loaded storage).
  { subst panel.
    assert (H1 : panel_DOMContentLoaded (loaded storage) = loaded storage).
    { unfold panel_DOMContentLoaded, saved. cbn [sessionStorage loaded]. rewrite Hurl.
      destruct (storage !! "groqApiKey") as [[|c k]|]; reflexivity. }
    rewrite H1. unfold cell_DOMContentLoaded, saved. cbn [sessionStorage loaded].
    rewrite Hkey. destruct (bool_decide _); reflexivity. }
  split; [rewrite Hpanel; reflexivity|].
  subst after.
  destruct (feedbackButton_onclick_frame py net (with_inputs cfg panel) formatOutput tg p Hguard)
    as (msg & p1 & Hrun & _ & Hrq & Hal).
  rewrite Hrun.
  rewrite (submit_without_credential net (with_inputs cfg panel) tg _ p1);
    [ | exact Hgroq | rewrite Hpanel; reflexivity ].
  destruct p1 as [props pr ap bt out figs mpl calls rq al].
  page_simpl. subst. split; reflexivity.
Qed.

End PanelAndFeedback.

Lemma saved_key_alone_is_not_restored_witness :
  requests
    (snd (feedbackButton_onclick py_echo (net_replies listed_models (lit "ok"))
            (with_inputs (cfg_groq [])
               (cell_DOMContentLoaded (cfg_groq [])
                  (panel_DOMContentLoaded (loaded {["groqApiKey" := api_key]}))))
            fmt_concat Primary (page_of (cfg_groq [])))) = [].
Proof.
  assert (Hguard : truthy_flag (this_props (page_of (cfg_groq [])) !! "executeLock") = false)
    by (vm_compute; reflexivity).
  assert (Hurl : ({["groqApiKey" := api_key]} : gmap string jsstring) !! "baseUrlInput" = None)
    by (vm_compute; reflexivity).
  assert (Hkey : ({["groqApiKey" := api_key]} : gmap string jsstring) !! "apiKey" = None)
    by (vm_compute; reflexivity).
  destruct (saved_key_alone_is_not_restored py_echo (net_replies listed_models (lit "ok"))
              (cfg_groq []) fmt_concat Primary (page_of (cfg_groq []))
              {["groqApiKey" := api_key]} Hguard eq_refl Hurl Hkey) as (_ & _ & Hrq).
  exact Hrq.
Defined.

(** * Properties of the document settings *)

Lemma indexOf_None (l : list jsstring) (x : jsstring) :
  indexOf l x = None <-> x ∉ l.
Proof.
  induction l as [|y rest IH]; cbn [indexOf].
  - split; [intros _; apply not_elem_of_nil | reflexivity].
  - case_bool_decide as Hy.
    + split; [discriminate|]. intros Hnot. exfalso. apply Hnot. subst. left.
    + destruct (indexOf rest x) eqn:E; cbn [option_map].
      * split; [discriminate|]. intros Hnot. exfalso.
        assert (Hin : x ∉ rest) by (intros H; apply Hnot; right; exact H).
        apply IH in Hin. discriminate Hin.
      * split; [|reflexivity]. intros _ Hin. apply elem_of_cons in Hin.
        destruct Hin as [->|Hin]; [congruence|]. apply (proj1 IH eq_refl). exact Hin.
Qed.

(** X26: the packages are set up exactly when no entry of the install
    list is the empty string; an empty list sets them up. *)
Theorem qpyodideSetupPythonPackages_iff (packages : list jsstring) :
  qpyodideSetupPythonPackages packages = true <-> Forall (fun name => name <> []) packages.
Proof.
  unfold qpyodideSetupPythonPackages. rewrite negb_involutive.
  rewrite bool_decide_eq_true, indexOf_None. unfold lit.
  rewrite Forall_forall. split.
  - intros Hnot name Hin ->. exact (Hnot Hin).
  - intros Hall Hin. exact (Hall [] Hin eq_refl).
Qed.

(** * What the feedback handler sends *)

Section Exchange.

Variable py : Interpreter.
Variable net : Network.
Variable cfg : Config.
Variable formatOutput : list OutputRecord -> jsstring.

Import FeedbackFacts MoreFeedbackFacts.

(** The request of the local-server backend, whatever the reply. *)
Lemma submit_flask_request (tg : Target) (messages : list (string * jsstring)) (p : Page) :
  backend cfg = lit "flask" ->
  requests (snd (submit net cfg tg messages p)) =
  requests p ++ [POST flask_url None messages None].
Proof.
  intros Hflask.
  assert (Hgroq : bool_decide (backend cfg = lit "groq") = false).
  { apply bool_decide_eq_false_2. rewrite Hflask. discriminate. }
  destruct p as [props pr ap bt out figs mpl calls rq al].
  destruct tg; [destruct pr as [ev ic oc [fb|] og] | destruct ap as [ev ic oc [fb|] og]];
    feedback_unfold;
    rewrite (bool_decide_eq_true_2 _ Hflask), Hgroq;
    grind; reflexivity.
Qed.

(** X27: with the local-server backend the handler makes exactly one
    request, to the fixed local address, without credential and without
    model. Its two messages are the system prompt and a user message made
    of the output of the run the handler has just made, or of the text of
    the failure when the interpreter could not be awaited, followed by the
    text of the editor, each between the fixed prompts. *)
Theorem feedback_flask_request (tg : Target) (p : Page) :
  truthy_flag (this_props p !! "executeLock") = false ->
  backend cfg = lit "flask" ->
  let data := editor_value (target tg p) in
  let runtime_message :=
    match mainPyodide py with
    | Fulfilled _ => formatOutput (run_records py (py_calls p) data)
    | Rejected e => lit "Error: " ++ exn_message e
    end in
  requests (snd (feedbackButton_onclick py net cfg formatOutput tg p)) =
  requests p ++
  [POST flask_url None
     [("system", system_prompt);
      ("user", runtime_prompt ++ runtime_message ++ prompt1 ++ data ++ prompt2)]
     None].
Proof.
  intros Hguard Hflask data runtime_message. subst data runtime_message.
  rewrite (feedbackButton_onclick_unlocked py net cfg formatOutput tg p Hguard).
  rewrite (rerun_unlocked py formatOutput _ p Hguard).
  destruct (mainPyodide py) as [[]|e]; cbv beta iota;
    rewrite submit_flask_request by exact Hflask;
    destruct p as [props pr ap bt out figs mpl calls rq al];
    unfold draw, exchange; destruct mpl; page_simpl; reflexivity.
Qed.

End Exchange.

Lemma feedback_flask_request_witness :
  requests (snd (feedbackButton_onclick py_not_ready net_down cfg_flask fmt_concat Primary
                   (page_of cfg_flask))) =
  [POST flask_url None
     [("system", system_prompt);
      ("user", runtime_prompt ++ (lit "Error: " ++ lit "Failed to load Pyodide") ++
               prompt1 ++ source ++ prompt2)]
     None].
Proof.
  assert (Hguard : truthy_flag (this_props (page_of cfg_flask) !! "executeLock") = false)
    by (vm_compute; reflexivity).
  rewrite (feedback_flask_request py_not_ready net_down cfg_flask fmt_concat Primary
             (page_of cfg_flask) Hguard eq_refl).
  vm_compute. reflexivity.
Defined.
